(** * Cloud Spanner adapter of TensorBoard: schema DDL, SQL classifier, cursor

    A shallow embedding of [tensorboard/schema.py] and
    [tensorboard/platforms/gcp/spanner.py], and the properties of the
    statement classifier, the DDL generator and the cursor that the
    specification states.

    Conventions of the embedding.
    - Python byte strings are [string]; integers are [Z]; a list is a [list].
    - A raised exception is the [Raise] case of [result].  A method of the
      cursor is a function from the cursor to a result and the cursor
      afterwards: what a method assigned before it raised stays assigned.
    - [re.match] is a backtracking matcher over the fragment of the [re]
      syntax the module's four patterns are written in.
    - The Cloud Spanner client is an interface ([Backend]); every call the
      cursor makes to it is recorded in the [calls] of the [world]. *)

From Stdlib Require Import ZArith String Ascii DecimalString Lia.
From Stdlib Require DecimalZ DecimalPos.
From stdpp Require Import base list gmap.

(** [gmap] brings stdpp's strings along, which stop [simpl] on the
    concatenation of strings; the proofs below compute with it. *)
#[local] Arguments String.append : simpl nomatch.

Local Open Scope string_scope.
Local Open Scope Z_scope.

(** ** Exceptions and results *)

(** The exceptions of Python that the module can meet.  [FormatFieldError]
    is not one of them: it marks a format string that leaves the fragment
    of [str.format] modelled below, where nothing is said about Python. *)
Inductive exn : Type :=
| ValueError (msg : string)
| IndexError (msg : string)
| UnboundLocalError (msg : string)
| NotImplementedError (msg : string)
| FormatFieldError (field : string)
| BackendError (msg : string).

Inductive result (A : Type) : Type :=
| Ok (a : A)
| Raise (e : exn).
Arguments Ok {A} a.
Arguments Raise {A} e.

Definition result_bind {A B} (m : result A) (k : A -> result B) : result B :=
  match m with
  | Ok a => k a
  | Raise e => Raise e
  end.

Notation "'try' x <- m ; k" := (result_bind m (fun x => k))
  (at level 10, x name, m at level 100, k at level 200).

(** ** Python values, strings and sequences *)

Module Py.

(** The scalars that reach the module: statement parameters and the
    cells of a row. *)
Inductive value : Type :=
| Int (z : Z)
| Str (s : string)
| Bool (b : bool)
| NoneV.

Definition dquote : string := String "034"%char EmptyString.

(** [str(z)] for an integer. *)
Definition str_of_int (z : Z) : string := NilZero.string_of_int (Z.to_int z).

(** [format(v, '')], what an empty replacement field prints. *)
Definition str (v : value) : string :=
  match v with
  | Int z => str_of_int z
  | Str s => s
  | Bool true => "True"
  | Bool false => "False"
  | NoneV => "None"
  end.

(** [s.replace(old, new)] for a one-character [old]. *)
Fixpoint replace (old : ascii) (new : string) (s : string) : string :=
  match s with
  | EmptyString => EmptyString
  | String c s' =>
      if Ascii.eqb c old then new ++ replace old new s'
      else String c (replace old new s')
  end.

(** [s.split(sep)] for a one-character [sep]: never the empty list. *)
Fixpoint split (sep : ascii) (s : string) : list string :=
  match s with
  | EmptyString => [EmptyString]
  | String c s' =>
      if Ascii.eqb c sep then EmptyString :: split sep s'
      else match split sep s' with
           | w :: ws => String c w :: ws
           | [] => [String c EmptyString]
           end
  end.

(** [sep.join(l)]. *)
Fixpoint join (sep : string) (l : list string) : string :=
  match l with
  | [] => EmptyString
  | [w] => w
  | w :: ws => w ++ sep ++ join sep ws
  end.

(** Whitespace of a byte string: space, [\t], [\n], [\v], [\f], [\r]. *)
Definition isspace (c : ascii) : bool :=
  let n := nat_of_ascii c in
  (Nat.eqb n 32 || (Nat.leb 9 n && Nat.leb n 13))%bool.

Fixpoint lstrip (s : string) : string :=
  match s with
  | EmptyString => EmptyString
  | String c s' => if isspace c then lstrip s' else s
  end.

(** [rstrip] keeps a character when it is not whitespace or when
    something is kept after it. *)
Fixpoint rstrip (s : string) : string :=
  match s with
  | EmptyString => EmptyString
  | String c s' =>
      match rstrip s' with
      | EmptyString => if isspace c then EmptyString else String c EmptyString
      | r => String c r
      end
  end.

(** [s.strip()]. *)
Definition strip (s : string) : string := rstrip (lstrip s).

(** [template.format( *args)] on the fragment of the format language made
    of literal text, the escapes [{{] and [}}], and the empty field [{}],
    which takes the next argument.  A field with a name, an index, a
    conversion or a format specification is outside the fragment and is
    reported as [FormatFieldError]; the module itself only creates [{}]. *)
Fixpoint format (template : string) (args : list string) : result string :=
  match template with
  | EmptyString => Ok EmptyString
  | String "{" (String "{" t) =>
      try r <- format t args; Ok (String "{" r)
  | String "{" (String "}" t) =>
      match args with
      | a :: args' => try r <- format t args'; Ok (a ++ r)
      | [] => Raise (IndexError "tuple index out of range")
      end
  | String "{" EmptyString =>
      Raise (ValueError "Single '{' encountered in format string")
  | String "{" t => Raise (FormatFieldError t)
  | String "}" (String "}" t) =>
      try r <- format t args; Ok (String "}" r)
  | String "}" _ => Raise (ValueError "Single '}' encountered in format string")
  | String c t => try r <- format t args; Ok (String c r)
  end.

(** [l[i]] with Python's negative indices. *)
Definition index {A} (l : list A) (i : Z) : result A :=
  let n := Z.of_nat (length l) in
  let j := if i <? 0 then i + n else i in
  if (j <? 0) || (n <=? j) then Raise (IndexError "list index out of range")
  else match l !! Z.to_nat j with
       | Some x => Ok x
       | None => Raise (IndexError "list index out of range")
       end.

(** The bound of a slice, brought into [0 .. len]. *)
Definition slice_bound (n i : Z) : Z :=
  if i <? 0 then Z.max 0 (i + n) else Z.min i n.

(** [l[start:stop]]. *)
Definition slice {A} (l : list A) (start stop : Z) : list A :=
  let n := Z.of_nat (length l) in
  let a := slice_bound n start in
  let b := slice_bound n stop in
  take (Z.to_nat (b - a)) (drop (Z.to_nat a) l).

End Py.

(** ** Regular expressions: the fragment used by the module *)

Module Re.

(** A pattern is a concatenation of single characters from a set,
    greedy repetitions of a set, and numbered groups. *)
Inductive regex : Type :=
| Eps
| Chr (p : ascii -> bool)
| Star (p : ascii -> bool)
| Cat (r1 r2 : regex)
| Grp (i : nat) (r : regex).

Definition groups : Type := list (nat * string).

(** The text between a position and a later one. *)
Definition consumed (s rest : string) : string :=
  substring 0 (String.length s - String.length rest)%nat s.

(** Greedy repetition: the longest run is tried first and given back
    one character at a time while the rest of the pattern fails. *)
Fixpoint star {R} (p : ascii -> bool) (s : string) (k : string -> option R)
  : option R :=
  match s with
  | EmptyString => k EmptyString
  | String c s' =>
      if p c then
        match star p s' k with
        | Some r => Some r
        | None => k s
        end
      else k s
  end.

Fixpoint run {R} (r : regex) (s : string) (g : groups)
         (k : string -> groups -> option R) : option R :=
  match r with
  | Eps => k s g
  | Chr p =>
      match s with
      | String c s' => if p c then k s' g else None
      | EmptyString => None
      end
  | Star p => star p s (fun s' => k s' g)
  | Cat r1 r2 => run r1 s g (fun s' g' => run r2 s' g' k)
  | Grp i r1 => run r1 s g (fun s' g' => k s' ((i, consumed s s') :: g'))
  end.

(** [pattern.match(s)]: anchored at the start, free at the end. *)
Definition rmatch (r : regex) (s : string) : option groups :=
  run r s [] (fun _ g => Some g).

(** [m.group(i)]. *)
Fixpoint group (g : groups) (i : nat) : string :=
  match g with
  | [] => EmptyString
  | (j, s) :: g' => if Nat.eqb i j then s else group g' i
  end.

Definition lower (c : ascii) : ascii :=
  let n := nat_of_ascii c in
  if (Nat.leb 65 n && Nat.leb n 90)%bool then ascii_of_nat (n + 32) else c.

Definition between (lo hi : nat) (c : ascii) : bool :=
  (Nat.leb lo (nat_of_ascii c) && Nat.leb (nat_of_ascii c) hi)%bool.

Definition is_char (a : ascii) (c : ascii) : bool := Ascii.eqb c a.

(** [re.IGNORECASE] on a set and on a literal. *)
Definition ignorecase (p : ascii -> bool) (c : ascii) : bool := p (lower c).

Fixpoint literal_i (w : string) : regex :=
  match w with
  | EmptyString => Eps
  | String a w' => Cat (Chr (ignorecase (is_char (lower a)))) (literal_i w')
  end.

(** [\s], [.], and the bracketed sets of the patterns. *)
Definition space : ascii -> bool := Py.isspace.
Definition dot (c : ascii) : bool := negb (Nat.eqb (nat_of_ascii c) 10).
Definition lower_az (c : ascii) : bool := between 97 122 c.
Definition digit (c : ascii) : bool := between 48 57 c.

Fixpoint seq (rs : list regex) : regex :=
  match rs with
  | [] => Eps
  | [r] => r
  | r :: rs' => Cat r (seq rs')
  end.

End Re.

(** ** tensorboard/schema.py *)

Module schema.

(** The classes below [ColumnType].  [OtherColumnType] stands for an
    instance of [ColumnType] itself or of a subclass the Spanner module
    does not know of; it carries what its [__class__] prints as. *)
Inductive ColumnType : Type :=
| BoolColumnType
| BytesColumnType (length : option Z)
| Int64ColumnType
| StringColumnType (length : option Z)
| OtherColumnType (class_repr : string).

(** The three schema classes.  [name] and [columns] are attributes of
    more than one class; the fields carry the initial of their class where
    two would meet ([c_name], [t_name], [i_name], [i_table], [i_columns]). *)
Record ColumnSchema : Type := {
  c_name : string;
  value_type : ColumnType;
  not_null : bool
}.

Record TableSchema : Type := {
  t_name : string;
  columns : list ColumnSchema;
  keys : list string
}.

Record IndexSchema : Type := {
  i_name : string;
  i_table : string;
  i_columns : list string
}.

Definition column (name : string) (ty : ColumnType) : ColumnSchema :=
  {| c_name := name; value_type := ty; not_null := false |}.

Definition column_not_null (name : string) (ty : ColumnType) : ColumnSchema :=
  {| c_name := name; value_type := ty; not_null := true |}.

Definition EVENT_LOGS_TABLE : TableSchema := {|
  t_name := "EventLogs";
  columns := [column "rowid" Int64ColumnType;
              column "customer_number" Int64ColumnType;
              column_not_null "run_id" Int64ColumnType;
              column "event_log_id" Int64ColumnType;
              column_not_null "path" (StringColumnType (Some 1023));
              column_not_null "offset" Int64ColumnType];
  keys := ["rowid"; "customer_number"; "run_id"; "event_log_id"]
|}.

Definition TENSORS_TABLE : TableSchema := {|
  t_name := "Tensors";
  columns := [column "rowid" Int64ColumnType;
              column "customer_number" Int64ColumnType;
              column_not_null "tag_id" Int64ColumnType;
              column_not_null "step_count" Int64ColumnType;
              column_not_null "encoding" Int64ColumnType;
              column_not_null "is_big" BoolColumnType;
              column_not_null "tensor" (BytesColumnType None)];
  keys := ["rowid"; "customer_number"; "tag_id"; "step_count"]
|}.

Definition RUNS_ID_INDEX : IndexSchema := {|
  i_name := "RunsIdIndex";
  i_table := "Runs";
  i_columns := ["customer_number"; "run_id"]
|}.

(** The other tables and indexes of the module. *)
Definition BIG_TENSORS_TABLE : TableSchema := {|
  t_name := "BigTensors";
  columns := [column "rowid" Int64ColumnType;
              column "customer_number" Int64ColumnType;
              column_not_null "tag_id" Int64ColumnType;
              column_not_null "step_count" Int64ColumnType;
              column "tensor" (BytesColumnType None)];
  keys := ["rowid"; "customer_number"; "tag_id"; "step_count"]
|}.

Definition EXPERIMENTS_TABLE : TableSchema := {|
  t_name := "Experiments";
  columns := [column "customer_number" Int64ColumnType;
              column "experiment_id" Int64ColumnType;
              column_not_null "name" (StringColumnType (Some 500));
              column_not_null "description" (StringColumnType (Some 65535))];
  keys := ["customer_number"; "experiment_id"]
|}.

Definition PLUGINS_TABLE : TableSchema := {|
  t_name := "Plugins";
  columns := [column "plugin_id" Int64ColumnType;
              column_not_null "name" (StringColumnType (Some 255))];
  keys := ["plugin_id"]
|}.

Definition RUNS_TABLE : TableSchema := {|
  t_name := "Runs";
  columns := [column "rowid" Int64ColumnType;
              column "customer_number" Int64ColumnType;
              column_not_null "experiment_id" Int64ColumnType;
              column_not_null "run_id" Int64ColumnType;
              column_not_null "name" (StringColumnType (Some 1900))];
  keys := ["rowid"; "customer_number"; "experiment_id"; "run_id"]
|}.

Definition TAGS_TABLE : TableSchema := {|
  t_name := "Tags";
  columns := [column "rowid" Int64ColumnType;
              column "customer_number" Int64ColumnType;
              column_not_null "run_id" Int64ColumnType;
              column_not_null "tag_id" Int64ColumnType;
              column_not_null "plugin_id" Int64ColumnType;
              column "name" (StringColumnType (Some 500));
              column "display_name" (StringColumnType (Some 500));
              column "summary_description" (StringColumnType (Some 65535))];
  keys := ["rowid"; "customer_number"; "run_id"; "tag_id"]
|}.

Definition TABLES : list TableSchema :=
  [BIG_TENSORS_TABLE; EVENT_LOGS_TABLE; EXPERIMENTS_TABLE; PLUGINS_TABLE;
   RUNS_TABLE; TAGS_TABLE; TENSORS_TABLE].

Definition EXPERIMENTS_NAME_INDEX : IndexSchema := {|
  i_name := "ExperimentsNameIndex";
  i_table := "Experiments";
  i_columns := ["customer_number"; "name"]
|}.

Definition EVENT_LOGS_PATH_INDEX : IndexSchema := {|
  i_name := "EventLogsPathIndex";
  i_table := "EventLogs";
  i_columns := ["customer_number"; "run_id"; "path"]
|}.

Definition PLUGINS_NAME_INDEX : IndexSchema := {|
  i_name := "PluginsNameIndex";
  i_table := "Plugins";
  i_columns := ["name"]
|}.

Definition RUNS_NAME_INDEX : IndexSchema := {|
  i_name := "RunsNameIndex";
  i_table := "Runs";
  i_columns := ["customer_number"; "experiment_id"; "name"]
|}.

Definition TAGS_ID_INDEX : IndexSchema := {|
  i_name := "TagsIdIndex";
  i_table := "Tags";
  i_columns := ["customer_number"; "tag_id"]
|}.

Definition TAGS_NAME_INDEX : IndexSchema := {|
  i_name := "TagsNameIndex";
  i_table := "Tags";
  i_columns := ["customer_number"; "run_id"; "name"]
|}.

Definition INDEXES : list IndexSchema :=
  [EXPERIMENTS_NAME_INDEX; EVENT_LOGS_PATH_INDEX; PLUGINS_NAME_INDEX;
   RUNS_ID_INDEX; RUNS_NAME_INDEX; TAGS_ID_INDEX; TAGS_NAME_INDEX].

(** What a subscript [d[key]] of a dict gives: the value, or [KeyError]
    with the key. *)
Inductive subscript (A : Type) : Type :=
| Found (a : A)
| KeyError (key : string).
Arguments Found {A} a.
Arguments KeyError {A} key.

Definition getitem {A} (d : gmap string A) (key : string) : subscript A :=
  match d !! key with
  | Some a => Found a
  | None => KeyError key
  end.

(** The loop of [TableSchema.__init__]: [_name_to_column[c.name] = c] for
    each column in turn.  The columns of a table are fixed when it is
    made, so the dict is a function of them. *)
Definition _name_to_column (columns : list ColumnSchema)
  : gmap string ColumnSchema :=
  foldl (fun d c => <[c_name c := c]> d) ∅ columns.

(** [table.get_column(name)]. *)
Definition get_column (t : TableSchema) (name : string)
  : subscript ColumnSchema :=
  getitem (_name_to_column (columns t)) name.

(** [dict([(t.name, t) for t in TABLES])]. *)
Definition TABLES_DICT : gmap string TableSchema :=
  foldl (fun d t => <[t_name t := t]> d) ∅ TABLES.

(** [get_table(name)]. *)
Definition get_table (name : string) : subscript TableSchema :=
  getitem TABLES_DICT name.

End schema.

(** ** tensorboard/platforms/gcp/spanner.py *)

Module spanner.
Import schema.

(** *** DDL *)

(** [if column_type.length:] holds for an integer other than zero. *)
Definition length_given (length : option Z) : option Z :=
  match length with
  | Some n => if n =? 0 then None else Some n
  | None => None
  end.

Definition to_spanner_type (column_type : ColumnType) : result string :=
  match column_type with
  | BoolColumnType => Ok "BOOL"
  | BytesColumnType length =>
      match length_given length with
      | Some n => Ok ("BYTES(" ++ Py.str_of_int n ++ ")")
      | None => Ok "BYTES(MAX)"
      end
  | Int64ColumnType => Ok "INT64"
  | StringColumnType length =>
      match length_given length with
      | Some n => Ok ("STRING(" ++ Py.str_of_int n ++ ")")
      | None => Ok "STRING(MAX)"
      end
  | OtherColumnType class_repr =>
      Raise (ValueError (class_repr ++ " is not a support ColumnType"))
  end.

(** What [to_spanner_ddl] is given: a table, an index, or something else. *)
Inductive ddl_spec : Type :=
| Table (t : TableSchema)
| Index (i : IndexSchema)
| OtherSpec.

(** The loop of [to_spanner_ddl] over [spec.columns]: one ["name type"]
    per column, in order, stopping at the first type that raises. *)
Fixpoint column_decls (cs : list ColumnSchema) : result (list string) :=
  match cs with
  | [] => Ok []
  | c :: cs' =>
      try ty <- to_spanner_type (value_type c);
      try rest <- column_decls cs';
      Ok ((c_name c ++ " " ++ ty) :: rest)
  end.

Definition to_spanner_ddl (spec : ddl_spec) : result string :=
  match spec with
  | Table t =>
      try columns <- column_decls (columns t);
      let columns := Py.join ", " columns in
      let keys := Py.join ", " (keys t) in
      Ok ("CREATE TABLE " ++ t_name t ++ " (" ++ columns
            ++ ") PRIMARY KEY (" ++ keys ++ ")")
  | Index i =>
      Ok ("CREATE UNIQUE INDEX " ++ i_name i ++ " ON " ++ i_table i
            ++ " (" ++ Py.join ", " (i_columns i) ++ ")")
  | OtherSpec =>
      Raise (UnboundLocalError
               "local variable 'ddl' referenced before assignment")
  end.

(** *** Statements *)

Inductive statement : Type :=
| InsertSQL (table : string) (columns : list string) (values : list string)
| SelectSQL (sql : string) (table : string) (columns : list string).

Import Re.

(** The bracketed sets of the patterns. *)
Definition set_name (c : ascii) : bool :=
  (lower_az c || digit c || is_char "_" c)%bool.
Definition set_names (c : ascii) : bool :=
  (lower_az c || digit c || is_char "," c || is_char "_" c || space c)%bool.
Definition set_tables (c : ascii) : bool :=
  (lower_az c || digit c || is_char "," c || is_char "_" c)%bool.
Definition set_col_name (c : ascii) : bool :=
  (lower_az c || between 65 122 c || digit c || is_char "_" c)%bool.

(** [\s*insert\s*into\s*([a-z0-9_]* )\s*\(([a-z0-9,_\s]* )\)\s*values\s*\((.* )\)]
    with [re.IGNORECASE]. *)
Definition INSERT_PATTERN : regex :=
  seq [Star space; literal_i "insert"; Star space; literal_i "into";
       Star space; Grp 1 (Star (ignorecase set_name)); Star space;
       Chr (is_char "("); Grp 2 (Star (ignorecase set_names));
       Chr (is_char ")"); Star space; literal_i "values"; Star space;
       Chr (is_char "("); Grp 3 (Star dot); Chr (is_char ")")].

(** [\s*select.*] with [re.IGNORECASE]. *)
Definition SELECT_PATTERN : regex :=
  seq [Star space; literal_i "select"; Star dot].

(** [SelectSQL._PATTERN]:
    [\s*select\s*([a-z0-9_,\s]* )from\s*([a-z0-9,_]* ).*] with
    [re.IGNORECASE]. *)
Definition _PATTERN : regex :=
  seq [Star space; literal_i "select"; Star space;
       Grp 1 (Star (ignorecase set_names)); literal_i "from"; Star space;
       Grp 2 (Star (ignorecase set_tables)); Star dot].

(** [SelectSQL._COL_NAME_PATTERN]: [\s*([a-zA-z0-9_]* )\s*.*]. *)
Definition _COL_NAME_PATTERN : regex :=
  seq [Star space; Grp 1 (Star set_col_name); Star space; Star dot].

(** The loop of [SelectSQL.__init__] over the pieces of the select list. *)
Fixpoint column_names (pieces : list string) : result (list string) :=
  match pieces with
  | [] => Ok []
  | c :: rest =>
      match rmatch _COL_NAME_PATTERN c with
      | None => Raise (ValueError ("Could not parse column name from: " ++ c))
      | Some m =>
          try names <- column_names rest;
          Ok (group m 1 :: names)
      end
  end.

(** [SelectSQL(sql)]. *)
Definition SelectSQL_init (sql : string) : result statement :=
  match rmatch _PATTERN sql with
  | None =>
      Raise (ValueError
               ("Could not parse columns and table name from query: " ++ sql))
  | Some m =>
      let table := group m 2 in
      try columns <- column_names (Py.split "," (group m 1));
      Ok (SelectSQL sql table columns)
  end.

(** The quoting loop of [parse_sql]: a string parameter is put between
    double quotes, any other parameter is left as it is. *)
Definition quote_parameter (p : Py.value) : Py.value :=
  match p with
  | Py.Str s => Py.Str (Py.dquote ++ s ++ Py.dquote)
  | _ => p
  end.

(** The substitution of the parameters: the first three statements of
    [parse_sql]. *)
Definition substitute (sql : string) (parameters : list Py.value)
  : result string :=
  let sql := Py.replace "?" "{}" sql in
  let parameters := map quote_parameter parameters in
  Py.format sql (map Py.str parameters).

(** [parse_sql(sql, parameters)]; [None] is the value Python returns when
    the function runs off its end. *)
Definition parse_sql (sql : string) (parameters : list Py.value)
  : result (option statement) :=
  try sql <- substitute sql parameters;
  match rmatch INSERT_PATTERN sql with
  | Some m =>
      let table := group m 1 in
      let columns := map Py.strip (Py.split "," (group m 2)) in
      let values := map Py.strip (Py.split "," (group m 3)) in
      Ok (Some (InsertSQL table columns values))
  | None =>
      match rmatch SELECT_PATTERN sql with
      | Some _ => try s <- SelectSQL_init sql; Ok (Some s)
      | None => Ok None
      end
  end.

(** *** The Cloud Spanner client *)

Definition Row : Type := list Py.value.

(** The calls the cursor makes to the service: the commit of a batch
    holding one insert mutation, the creation of a session, and a query
    whose rows are all consumed. *)
Inductive backend_call : Type :=
| BatchInsert (table : string) (columns : list string)
              (values : list (list string))
| SessionCreate
| ExecuteSql (sql : string).

(** The service: a state and what each call answers and leaves behind.
    The rows matter for [ExecuteSql] only. *)
Class Backend : Type := {
  db : Type;
  perform : db -> backend_call -> result (list Row) * db
}.

Record world `{Backend} : Type := {
  state : db;
  calls : list backend_call
}.

Definition call `{Backend} (w : world) (op : backend_call)
  : result (list Row) * world :=
  let (r, s) := perform (state w) op in
  (r, {| state := s; calls := calls w ++ [op] |}).

(** *** CloudSpannerCursor *)

(** One entry of [description]: the name and six [None]. *)
Definition describe (c : string) : list (option string) :=
  [Some c; None; None; None; None; None; None].

Record CloudSpannerCursor : Type := {
  database_id : string;
  instance_id : string;
  database : option (string * string);
  _results : list Row;
  _rindex : Z;
  _descriptions : list (list (option string));
  arraysize : Z
}.

(** [CloudSpannerCursor(client, database_id, instance_id)]. *)
Definition new_cursor (database_id instance_id : string)
  : CloudSpannerCursor := {|
  database_id := database_id;
  instance_id := instance_id;
  database := None;
  _results := [];
  _rindex := 0;
  _descriptions := [];
  arraysize := 10
|}.

Definition set_database (self : CloudSpannerCursor) : CloudSpannerCursor := {|
  database_id := database_id self;
  instance_id := instance_id self;
  database := Some (instance_id self, database_id self);
  _results := _results self;
  _rindex := _rindex self;
  _descriptions := _descriptions self;
  arraysize := arraysize self
|}.

Definition set_rindex (i : Z) (self : CloudSpannerCursor)
  : CloudSpannerCursor := {|
  database_id := database_id self;
  instance_id := instance_id self;
  database := database self;
  _results := _results self;
  _rindex := i;
  _descriptions := _descriptions self;
  arraysize := arraysize self
|}.

(** The three assignments at the end of the SELECT branch of [execute]. *)
Definition set_results (rows : list Row) (columns : list string)
           (self : CloudSpannerCursor) : CloudSpannerCursor := {|
  database_id := database_id self;
  instance_id := instance_id self;
  database := database self;
  _results := rows;
  _rindex := 0;
  _descriptions := map describe columns;
  arraysize := arraysize self
|}.

Definition len {A} (l : list A) : Z := Z.of_nat (length l).

Definition unsupported (sql : string) : exn :=
  ValueError ("SQL query " ++ sql ++ " is not supported for Cloud Spanner.").

(** [cursor.execute(sql, parameters)]. *)
Definition execute `{Backend} (self : CloudSpannerCursor) (w : world)
           (sql : string) (parameters : list Py.value)
  : result unit * CloudSpannerCursor * world :=
  let self := set_database self in
  match parse_sql sql parameters with
  | Raise e => (Raise e, self, w)
  | Ok None => (Raise (unsupported sql), self, w)
  | Ok (Some (InsertSQL table columns values)) =>
      match call w (BatchInsert table columns [values]) with
      | (Raise e, w) => (Raise e, self, w)
      | (Ok _, w) => (Ok tt, self, w)
      end
  | Ok (Some (SelectSQL query _ columns)) =>
      match call w SessionCreate with
      | (Raise e, w) => (Raise e, self, w)
      | (Ok _, w) =>
          match call w (ExecuteSql query) with
          | (Raise e, w) => (Raise e, self, w)
          | (Ok rows, w) => (Ok tt, set_results rows columns self, w)
          end
      end
  end.

(** [cursor.executemany(sql, seq_of_parameters)]. *)
Fixpoint executemany `{Backend} (self : CloudSpannerCursor) (w : world)
         (sql : string) (seq_of_parameters : list (list Py.value))
  : result unit * CloudSpannerCursor * world :=
  match seq_of_parameters with
  | [] => (Ok tt, self, w)
  | p :: rest =>
      match execute self w sql p with
      | (Raise e, self, w) => (Raise e, self, w)
      | (Ok _, self, w) => executemany self w sql rest
      end
  end.

(** [cursor.fetchone()]; the outer [None] of the answer is Python's. *)
Definition fetchone (self : CloudSpannerCursor)
  : result (option Row) * CloudSpannerCursor :=
  if _rindex self <? len (_results self) then
    let self := set_rindex (_rindex self + 1) self in
    match Py.index (_results self) (_rindex self - 1) with
    | Ok row => (Ok (Some row), self)
    | Raise e => (Raise e, self)
    end
  else (Ok None, self).

(** [cursor.fetchmany(size)]; [size = None] when the argument is left out. *)
Definition fetchmany (self : CloudSpannerCursor) (size : option Z)
  : result (list Row) * CloudSpannerCursor :=
  let start_index := _rindex self in
  let end_index :=
    match size with
    | Some size => start_index + size
    | None => len (_results self)
    end in
  let self := set_rindex end_index self in
  (Ok (Py.slice (_results self) start_index end_index), self).

(** [cursor.fetchall()]. *)
Definition fetchall (self : CloudSpannerCursor)
  : result (list Row) * CloudSpannerCursor :=
  let start_index := _rindex self in
  let end_index := len (_results self) in
  let self := set_rindex end_index self in
  (Ok (Py.slice (_results self) start_index end_index), self).

Definition description (self : CloudSpannerCursor)
  : list (list (option string)) := _descriptions self.

Definition rowcount (self : CloudSpannerCursor) : Z := len (_results self).

(** [cursor.__iter__()] is a generator function.  Calling it gives a
    generator whose body has not started; the first [next] enters the
    [for] loop and reads [self._results] then; each later [next] resumes
    the loop over that same list. *)
Inductive generator : Type :=
| Created
| Suspended (rows : list Row) (i : nat)
| Finished.

Definition __iter__ (self : CloudSpannerCursor) : generator := Created.

(** The [for] loop over a list: the element at the index, or the end. *)
Definition loop_step (rows : list Row) (i : nat) : option Row * generator :=
  match rows !! i with
  | Some row => (Some row, Suspended rows (S i))
  | None => (None, Finished)
  end.

(** [next(g)]; [None] is [StopIteration]. *)
Definition next (self : CloudSpannerCursor) (g : generator)
  : option Row * generator :=
  match g with
  | Created => loop_step (_results self) 0
  | Suspended rows i => loop_step rows i
  | Finished => (None, Finished)
  end.

(** What a [for row in cursor] loop sees: [next] until [StopIteration],
    at most [fuel] times.  The cursor may not change in between. *)
Fixpoint drain (fuel : nat) (self : CloudSpannerCursor) (g : generator)
  : list Row * generator :=
  match fuel with
  | O => ([], g)
  | S fuel =>
      match next self g with
      | (Some row, g) =>
          let (rows, g) := drain fuel self g in (row :: rows, g)
      | (None, g) => ([], g)
      end
  end.

(** A fetch call, and a sequence of them run one after the other; the
    run goes on after an exception, as a caller that catches it would. *)
Inductive fetch_call : Type :=
| FetchOne
| FetchMany (size : option Z)
| FetchAll.

(** What a fetch call hands back. *)
Inductive fetched : Type :=
| OneRow (row : option Row)
| Rows (rows : list Row)
| Raised (e : exn).

Definition fetch (self : CloudSpannerCursor) (f : fetch_call)
  : fetched * CloudSpannerCursor :=
  match f with
  | FetchOne =>
      match fetchone self with
      | (Ok row, self) => (OneRow row, self)
      | (Raise e, self) => (Raised e, self)
      end
  | FetchMany size =>
      match fetchmany self size with
      | (Ok rows, self) => (Rows rows, self)
      | (Raise e, self) => (Raised e, self)
      end
  | FetchAll =>
      match fetchall self with
      | (Ok rows, self) => (Rows rows, self)
      | (Raise e, self) => (Raised e, self)
      end
  end.

Fixpoint fetches (self : CloudSpannerCursor) (fs : list fetch_call)
  : list fetched * CloudSpannerCursor :=
  match fs with
  | [] => ([], self)
  | f :: fs =>
      let (r, self) := fetch self f in
      let (rs, self) := fetches self fs in
      (r :: rs, self)
  end.

End spanner.

(** ** A service kept in memory

    The test double of the development: the state is the list of stored
    rows, an insert appends its rows, a query answers every stored row. *)

Definition memory_backend : spanner.Backend := {|
  spanner.db := list spanner.Row;
  spanner.perform rows op :=
    match op with
    | spanner.BatchInsert _ _ values => (Ok [], (rows ++ map (map Py.Str) values)%list)
    | spanner.SessionCreate => (Ok [], rows)
    | spanner.ExecuteSql _ => (Ok rows, rows)
    end
|}.

Definition memory_world (rows : list spanner.Row) : @spanner.world memory_backend :=
  {| spanner.state := rows : @spanner.db memory_backend; spanner.calls := [] |}.

(** A cursor that has buffered [rows] and read none of them. *)
Definition buffered (rows : list spanner.Row) : spanner.CloudSpannerCursor :=
  spanner.set_results rows [] (spanner.new_cursor "tb" "jlewi-tb").

(** The size of a [fetchmany] is a count of rows. *)
Definition size_ok (f : spanner.fetch_call) : Prop :=
  match f with
  | spanner.FetchMany (Some n) => 0 <= n
  | _ => True
  end.

(** The read position seen from the buffer: never past its end. *)
Definition position (self : spanner.CloudSpannerCursor) : Z :=
  Z.min (spanner._rindex self) (spanner.len (spanner._results self)).

(** The rows a fetch call hands to its caller. *)
Definition delivered (r : spanner.fetched) : list spanner.Row :=
  match r with
  | spanner.OneRow (Some row) => [row]
  | spanner.OneRow None => []
  | spanner.Rows rows => rows
  | spanner.Raised _ => []
  end.

(** Every character of a string is in a set. *)
Fixpoint all_chars (p : ascii -> bool) (s : string) : bool :=
  match s with
  | EmptyString => true
  | String c s' => (p c && all_chars p s')%bool
  end.

(** The longest run of characters of a set at the start of a string, and
    what follows it. *)
Fixpoint take_while (p : ascii -> bool) (s : string) : string :=
  match s with
  | EmptyString => EmptyString
  | String c s' => if p c then String c (take_while p s') else EmptyString
  end.

Fixpoint drop_while (p : ascii -> bool) (s : string) : string :=
  match s with
  | EmptyString => EmptyString
  | String c s' => if p c then drop_while p s' else s
  end.

Definition brace (c : ascii) : bool :=
  (Ascii.eqb c "{" || Ascii.eqb c "}")%bool.

Definition no_brace (c : ascii) : bool := negb (brace c).

(** A statement with its placeholders filled from left to right; [None]
    when the arguments run out. *)
Fixpoint fill (sql : string) (args : list string) : option string :=
  match sql with
  | EmptyString => Some EmptyString
  | String c s =>
      if Ascii.eqb c "?" then
        match args with
        | a :: args' => option_map (append a) (fill s args')
        | [] => None
        end
      else option_map (String c) (fill s args)
  end.

(** What a parameter is written as in the statement. *)
Definition render (p : Py.value) : string := Py.str (spanner.quote_parameter p).

(** The statement starts, after blanks, with the first letter of INSERT
    or of SELECT, in either case. *)
Definition starts_keyword (text : string) : bool :=
  match Py.lstrip text with
  | String c _ =>
      (Ascii.eqb (Re.lower c) "i" || Ascii.eqb (Re.lower c) "s")%bool
  | EmptyString => false
  end.

(** The first character of a string, if any, is outside a set. *)
Definition stops (p : ascii -> bool) (s : string) : bool :=
  match s with
  | EmptyString => true
  | String c _ => negb (p c)
  end.

(** Two strings are the same but for the case of their letters. *)
Fixpoint same_letters (w pre : string) : bool :=
  match w, pre with
  | EmptyString, EmptyString => true
  | String a w', String c pre' =>
      (Ascii.eqb (Re.lower c) (Re.lower a) && same_letters w' pre')%bool
  | _, _ => false
  end.

(** The characters of a table or column name: [[a-z0-9_]] under
    [re.IGNORECASE]. *)
Definition name_char (c : ascii) : bool := Re.ignorecase spanner.set_name c.

(** The characters of the text of a value: no comma, no newline. *)
Definition value_char (c : ascii) : bool :=
  (negb (Ascii.eqb c ",") && Re.dot c)%bool.

(** A parameter whose text can stand in a list of values: a string
    parameter holds no comma and no newline. *)
Definition plain (p : Py.value) : bool :=
  match p with
  | Py.Str s => all_chars value_char s
  | _ => true
  end.

(** The INSERT statement for a table, its columns and [n] parameters, as
    the callers of the cursor write it. *)
Definition insert_statement (table : string) (columns : list string)
           (n : nat) : string :=
  "INSERT INTO " ++ table ++ " (" ++ Py.join ", " columns ++ ") VALUES ("
    ++ Py.join ", " (replicate n "?") ++ ")".

(** A string starts with a word, whatever the case of the letters; and
    a string in which a word starts nowhere. *)
Fixpoint starts_ci (w s : string) : bool :=
  match w, s with
  | EmptyString, _ => true
  | String a w', String c s' =>
      (Ascii.eqb (Re.lower c) (Re.lower a) && starts_ci w' s')%bool
  | String _ _, EmptyString => false
  end.

Fixpoint free_of (w s : string) : bool :=
  (negb (starts_ci w s) &&
   match s with
   | EmptyString => true
   | String _ s' => free_of w s'
   end)%bool.

(** The text of a SELECT: the columns, the table and what follows it. *)
Definition select_text (columns : list string) (table rest : string)
  : string :=
  "SELECT " ++ Py.join ", " columns ++ " FROM " ++ table ++ rest.

(** A column type as the DDL generator reads it: a bound of zero is no
    bound. *)
Definition as_read (ty : schema.ColumnType) : schema.ColumnType :=
  match ty with
  | schema.BytesColumnType length =>
      schema.BytesColumnType (spanner.length_given length)
  | schema.StringColumnType length =>
      schema.StringColumnType (spanner.length_given length)
  | _ => ty
  end.

(** The items of a list as a DDL statement writes them between its
    parentheses: the first as it is, every later one behind a comma and a
    blank.  Written from the form [(<col> <type>, ...)] of the
    specification, not from the code. *)
Definition listed (items : list string) : string :=
  match items with
  | [] => EmptyString
  | first :: later =>
      first ++ foldr (fun item text => ", " ++ item ++ text) EmptyString later
  end.

(** A column whose name is a word of letters, digits and underscores. *)
Definition named (c : schema.ColumnSchema) : Prop :=
  (schema.c_name c <> EmptyString) /\
  (all_chars name_char (schema.c_name c) = true).

(** The name at the start of a piece of a column list cut at its commas:
    the word behind the leading blanks. *)
Definition name_of_piece (piece : string) : string :=
  take_while name_char (Py.lstrip piece).

(** A string that holds no space. *)
Fixpoint spaceless (s : string) : bool :=
  match s with
  | EmptyString => true
  | String c s' => (negb (Ascii.eqb c " ") && spaceless s')%bool
  end.

(** A column type of one of the four declared classes. *)
Definition declared (ty : schema.ColumnType) : Prop :=
  forall class_repr, ty <> schema.OtherColumnType class_repr.

(** The declaration of a column in a DDL statement, given its type. *)
Definition decl (c : schema.ColumnSchema) (ty : string) : string :=
  schema.c_name c ++ " " ++ ty.

Definition INSERT_EVENT_LOG : string :=
  "INSERT INTO EventLogs (rowid, customer_number, run_id, event_log_id, path, offset) VALUES (?, ?, ?, ?, ?, ?)".

Definition SELECT_EVENT_LOG : string :=
  "SELECT rowid, customer_number FROM EventLogs WHERE rowid = ? AND event_log_id = ?".

Definition UPDATE_EVENT_LOG : string :=
  "UPDATE EventLogs SET offset = ? WHERE rowid = ?".

(** * Properties *)

Import schema spanner.

(** ** Sequences *)

Section Sequences.
Context {A : Type}.
Implicit Types (l : list A) (i n : Z).

Lemma len_nonneg l : 0 <= len l.
Proof. unfold len. lia. Qed.

Lemma slice_forward l i n :
  0 <= i -> 0 <= n ->
  Py.slice l i (i + n) = take (Z.to_nat n) (drop (Z.to_nat i) l).
Proof.
  intros Hi Hn. unfold Py.slice, Py.slice_bound.
  destruct (Z.ltb_spec i 0) as [?|_]; [lia|].
  destruct (Z.ltb_spec (i + n) 0) as [?|_]; [lia|].
  set (m := Z.of_nat (length l)).
  destruct (Z.le_gt_cases i m) as [Him|Him].
  - rewrite (Z.min_l i m) by lia.
    destruct (Z.le_gt_cases (i + n) m) as [Hin|Hin].
    + rewrite Z.min_l by lia. f_equal. lia.
    + rewrite Z.min_r by lia.
      rewrite !take_ge; [done| |]; rewrite length_drop; subst m; lia.
  - rewrite (Z.min_r i m), (Z.min_r (i + n) m) by lia.
    rewrite Z.sub_diag. simpl.
    rewrite (drop_ge l (Z.to_nat i)) by (subst m; lia).
    by rewrite take_nil.
Qed.

Lemma slice_to_end l i :
  0 <= i -> Py.slice l i (len l) = drop (Z.to_nat i) l.
Proof.
  intros Hi. unfold Py.slice, Py.slice_bound, len.
  destruct (Z.ltb_spec i 0) as [?|_]; [lia|].
  destruct (Z.ltb_spec (Z.of_nat (length l)) 0) as [?|_]; [lia|].
  set (m := Z.of_nat (length l)).
  rewrite (Z.min_id m).
  destruct (Z.le_gt_cases i m) as [Him|Him].
  - rewrite Z.min_l by lia. apply take_ge. rewrite length_drop. subst m. lia.
  - rewrite Z.min_r by lia. rewrite Z.sub_diag.
    rewrite (drop_ge l (Z.to_nat i)) by (subst m; lia). reflexivity.
Qed.

Lemma slice_past_end l i j : len l <= i -> 0 <= j -> Py.slice l i j = [].
Proof.
  intros Hi Hj. unfold Py.slice, Py.slice_bound, len in *.
  destruct (Z.ltb_spec i 0) as [?|_]; [lia|].
  destruct (Z.ltb_spec j 0) as [?|_]; [lia|].
  rewrite (Z.min_r i) by lia.
  replace (Z.to_nat (Z.min j (Z.of_nat (length l)) - Z.of_nat (length l)))
    with 0%nat by lia.
  done.
Qed.

Lemma index_lookup l i x :
  0 <= i -> l !! Z.to_nat i = Some x -> Py.index l i = Ok x.
Proof.
  intros Hi Hx. unfold Py.index.
  pose proof (lookup_lt_Some _ _ _ Hx) as Hlt.
  destruct (Z.ltb_spec i 0) as [?|_]; [lia|].
  destruct (Z.ltb_spec i 0) as [?|_]; [lia|].
  destruct (Z.leb_spec (Z.of_nat (length l)) i) as [?|_]; [lia|].
  simpl. by rewrite Hx.
Qed.

End Sequences.

(** ** Strings without a space *)

Lemma spaceless_app (a b : string) :
  spaceless (a ++ b) = (spaceless a && spaceless b)%bool.
Proof.
  induction a as [|c a IH]; simpl; [done|].
  rewrite IH. by rewrite andb_assoc.
Qed.

Lemma spaceless_uint (d : Decimal.uint) :
  spaceless (NilEmpty.string_of_uint d) = true.
Proof. induction d; simpl; auto. Qed.

Lemma spaceless_str_of_int (n : Z) : spaceless (Py.str_of_int n) = true.
Proof.
  unfold Py.str_of_int, NilZero.string_of_int, NilZero.string_of_uint.
  destruct (Z.to_int n) as [d|d]; destruct d;
    try reflexivity; apply spaceless_uint.
Qed.

(** A declaration ["name type"] is cut at its last space when the type
    holds none: the name and the type can be read back. *)
Lemma decl_inj (n1 n2 t1 t2 : string) :
  spaceless t1 = true -> spaceless t2 = true ->
  n1 ++ " " ++ t1 = n2 ++ " " ++ t2 -> n1 = n2 /\ t1 = t2.
Proof.
  intros H1 H2. revert n2.
  induction n1 as [|c n1 IH]; intros [|c' n2]; simpl; intros Heq.
  - by injection Heq.
  - injection Heq as <- ->.
    rewrite spaceless_app in H1. simpl in H1.
    by rewrite andb_false_r in H1.
  - injection Heq as -> <-.
    rewrite spaceless_app in H2. simpl in H2.
    by rewrite andb_false_r in H2.
  - injection Heq as -> Heq. destruct (IH _ Heq) as [-> ->]. done.
Qed.

(** ** The DDL generator *)

Lemma to_spanner_type_spaceless ty s :
  to_spanner_type ty = Ok s -> spaceless s = true.
Proof.
  destruct ty as [|l| |l|r]; simpl; try destruct (length_given l);
    intros [= <-]; simpl; rewrite ?spaceless_app, ?spaceless_str_of_int;
    reflexivity.
Qed.

Lemma to_spanner_type_declared ty :
  declared ty -> exists s, to_spanner_type ty = Ok s.
Proof.
  intros Hty.
  destruct ty as [|l| |l|r]; simpl; try destruct (length_given l); eauto.
  by destruct (Hty r).
Qed.

Lemma column_decls_declared (cs : list ColumnSchema) :
  Forall (fun c => declared (value_type c)) cs ->
  exists tys,
    Forall2 (fun c ty => to_spanner_type (value_type c) = Ok ty) cs tys /\
    column_decls cs = Ok (zip_with decl cs tys).
Proof.
  induction 1 as [|c cs Hc _ (tys & Htys & IH)]; simpl.
  - exists []. split; [constructor|done].
  - destruct (to_spanner_type_declared _ Hc) as [ty Hty].
    exists (ty :: tys). split; [by constructor|].
    rewrite Hty, IH. done.
Qed.

Lemma decls_NoDup (cs : list ColumnSchema) (tys : list string) :
  Forall2 (fun c ty => to_spanner_type (value_type c) = Ok ty) cs tys ->
  NoDup (map c_name cs) -> NoDup (zip_with decl cs tys).
Proof.
  induction 1 as [|c ty cs tys Hty Hall IH]; simpl; [constructor|].
  rewrite !NoDup_cons. intros [Hc Hcs]. split; [|auto].
  intros Hin. apply Hc.
  apply elem_of_zip_with in Hin as (c' & ty' & Heq & Hc' & Hty').
  assert (spaceless ty' = true) as Hs'.
  { apply list_elem_of_lookup in Hty' as [i Hi].
    destruct (Forall2_lookup_r _ _ _ _ _ Hall Hi) as (c'' & _ & Hc'').
    by eapply to_spanner_type_spaceless. }
  apply to_spanner_type_spaceless in Hty.
  destruct (decl_inj _ _ _ _ Hty Hs' Heq) as [-> _].
  apply list_elem_of_fmap. eauto.
Qed.

(** C6: the translation of a column type answers ["BOOL"] for Bool,
    ["BYTES(n)"] for Bytes with a bound [n] and ["BYTES(MAX)"] without,
    ["INT64"] for Int64, ["STRING(n)"] for String with a bound [n] and
    ["STRING(MAX)"] without, and raises the unsupported-type error for
    every other variant.  A bound is an integer other than zero. *)
Theorem to_spanner_type_total (ty : ColumnType) :
  match ty with
  | BoolColumnType => to_spanner_type ty = Ok "BOOL"
  | BytesColumnType (Some n) =>
      n <> 0 -> to_spanner_type ty = Ok ("BYTES(" ++ Py.str_of_int n ++ ")")
  | BytesColumnType None => to_spanner_type ty = Ok "BYTES(MAX)"
  | Int64ColumnType => to_spanner_type ty = Ok "INT64"
  | StringColumnType (Some n) =>
      n <> 0 -> to_spanner_type ty = Ok ("STRING(" ++ Py.str_of_int n ++ ")")
  | StringColumnType None => to_spanner_type ty = Ok "STRING(MAX)"
  | OtherColumnType class_repr =>
      to_spanner_type ty =
        Raise (ValueError (class_repr ++ " is not a support ColumnType"))
  end.
Proof.
  destruct ty as [|[n|]| |[n|]|r]; try reflexivity;
    intros Hn; simpl; destruct (Z.eqb_spec n 0); done.
Qed.

Lemma to_spanner_type_total_witness :
  to_spanner_type (StringColumnType (Some 1023)) = Ok "STRING(1023)".
Proof.
  apply (to_spanner_type_total (StringColumnType (Some 1023))).
  discriminate.
Defined.

(** The DDL of the EventLogs table and of an index, as the service gets
    them. *)
Example EVENT_LOGS_TABLE_ddl :
  to_spanner_ddl (Table EVENT_LOGS_TABLE) =
    Ok "CREATE TABLE EventLogs (rowid INT64, customer_number INT64, run_id INT64, event_log_id INT64, path STRING(1023), offset INT64) PRIMARY KEY (rowid, customer_number, run_id, event_log_id)".
Proof. reflexivity. Qed.

Example RUNS_ID_INDEX_ddl :
  to_spanner_ddl (Index RUNS_ID_INDEX) =
    Ok "CREATE UNIQUE INDEX RunsIdIndex ON Runs (customer_number, run_id)".
Proof. reflexivity. Qed.

(** A column of an undeclared type makes the DDL of its table fail. *)
Lemma column_decls_undeclared (cs1 cs2 : list ColumnSchema) c r :
  Forall (fun c => declared (value_type c)) cs1 ->
  value_type c = OtherColumnType r ->
  column_decls (cs1 ++ c :: cs2) =
    Raise (ValueError (r ++ " is not a support ColumnType")).
Proof.
  intros Hcs Hc. induction Hcs as [|c1 cs1 Hc1 _ IH]; simpl.
  - by rewrite Hc.
  - destruct (to_spanner_type_declared _ Hc1) as [ty ->]. simpl.
    by rewrite IH.
Qed.

(** ** The statement classifier *)

(** C4: the INSERT into EventLogs with the parameters (1, 2, 3, 4, "p", 5)
    is parsed as an insert into table EventLogs, with the six columns in
    their order and the values 1, 2, 3, 4, "p" between double quotes,
    and 5. *)
Theorem parse_sql_insert_event_log :
  parse_sql INSERT_EVENT_LOG
            [Py.Int 1; Py.Int 2; Py.Int 3; Py.Int 4; Py.Str "p"; Py.Int 5] =
    Ok (Some (InsertSQL "EventLogs"
                ["rowid"; "customer_number"; "run_id"; "event_log_id";
                 "path"; "offset"]
                ["1"; "2"; "3"; "4"; Py.dquote ++ "p" ++ Py.dquote; "5"])).
Proof. vm_compute. reflexivity. Qed.

(** C5: the SELECT from EventLogs with the parameters (297, 0) is parsed
    as a select on table EventLogs with the columns rowid and
    customer_number, trimmed and in that order, and with the raw query in
    which the first [?] is 297 and the second is 0. *)
Theorem parse_sql_select_event_log :
  parse_sql SELECT_EVENT_LOG [Py.Int 297; Py.Int 0] =
    Ok (Some (SelectSQL
                "SELECT rowid, customer_number FROM EventLogs WHERE rowid = 297 AND event_log_id = 0"
                "EventLogs" ["rowid"; "customer_number"])).
Proof. vm_compute. reflexivity. Qed.

Example parse_sql_update_event_log :
  parse_sql UPDATE_EVENT_LOG [Py.Int 23; Py.Int 297] = Ok None.
Proof. vm_compute. reflexivity. Qed.

(** ** The cursor: one fetch *)

Lemma set_rindex_results i self : _results (set_rindex i self) = _results self.
Proof. reflexivity. Qed.

Lemma fetchone_at_end self :
  len (_results self) <= _rindex self -> fetchone self = (Ok None, self).
Proof.
  intros Hend. unfold fetchone.
  destruct (Z.ltb_spec (_rindex self) (len (_results self))); [lia|done].
Qed.

Lemma fetchone_row self row :
  0 <= _rindex self ->
  _results self !! Z.to_nat (_rindex self) = Some row ->
  fetchone self = (Ok (Some row), set_rindex (_rindex self + 1) self).
Proof.
  intros Hpos Hrow. unfold fetchone.
  pose proof (lookup_lt_Some _ _ _ Hrow) as Hlt.
  destruct (Z.ltb_spec (_rindex self) (len (_results self))) as [_|Hge];
    [|unfold len in Hge; lia].
  cbn [_rindex _results set_rindex].
  rewrite Z.add_simpl_r. by rewrite (index_lookup _ _ row).
Qed.

(** C8, as the code has it: with a read position that is not negative,
    fetchone of a cursor returns the row at the read position and moves
    the position on by one; with the position at or past the end of the
    buffer it returns [None], raises nothing and leaves the cursor as it
    is. *)
Theorem fetchone_next_row (self : CloudSpannerCursor) :
  (0 <= _rindex self < len (_results self) ->
   exists row,
     _results self !! Z.to_nat (_rindex self) = Some row /\
     fetchone self = (Ok (Some row), set_rindex (_rindex self + 1) self))
  /\
  (len (_results self) <= _rindex self -> fetchone self = (Ok None, self)).
Proof.
  split.
  - intros [Hpos Hlt].
    destruct (lookup_lt_is_Some_2 (_results self) (Z.to_nat (_rindex self)))
      as [row Hrow]; [unfold len in Hlt; lia|].
    exists row. split; [done|]. by apply fetchone_row.
  - apply fetchone_at_end.
Qed.

Lemma fetchone_next_row_witness :
  let self := buffered [[Py.Int 297; Py.Int 0]; [Py.Int 392; Py.Int 1]] in
  fetchone self = (Ok (Some [Py.Int 297; Py.Int 0]), set_rindex 1 self) /\
  fetchone (set_rindex 2 self) = (Ok None, set_rindex 2 self).
Proof.
  intros self. split.
  - destruct (proj1 (fetchone_next_row self)) as (row & Hrow & Hfetch).
    + vm_compute. split; congruence.
    + injection Hrow as <-. exact Hfetch.
  - apply (proj2 (fetchone_next_row (set_rindex 2 self))).
    vm_compute. congruence.
Defined.

(** C8 as it is written fails: a fetchmany of size -3 on a buffer of one
    row leaves the read position at -3, and the fetchone that follows
    returns neither a row nor [None]: it raises [IndexError]. *)
Lemma fetchone_negative_position_counterexample :
  let self := (fetchmany (buffered [[Py.Int 297; Py.Int 0]]) (Some (- 3))).2 in
  _results self = [[Py.Int 297; Py.Int 0]] /\
  _rindex self = - 3 /\
  (fetchone self).1 = Raise (IndexError "list index out of range") /\
  (forall row, (fetchone self).1 <> Ok row).
Proof.
  vm_compute. repeat split; try reflexivity. intros row. discriminate.
Qed.

Lemma fetchmany_rows self n :
  0 <= _rindex self -> 0 <= n ->
  fetchmany self (Some n) =
    (Ok (take (Z.to_nat n) (drop (Z.to_nat (_rindex self)) (_results self))),
     set_rindex (_rindex self + n) self).
Proof.
  intros Hpos Hn. unfold fetchmany. rewrite set_rindex_results.
  by rewrite slice_forward.
Qed.

(** C2, as the code has it: with the read position [p >= 0] and a size
    [n >= 0], fetchmany(n) returns the rows of the buffer from [p] on, at
    most [n] of them, and sets the read position to [p + n].  The position
    moves by [n]: that is the number of rows returned when [n] rows were
    left, and takes the position beyond the end of the buffer when fewer
    were left. *)
Theorem fetchmany_advances_by_size (self : CloudSpannerCursor) (n : Z) :
  0 <= _rindex self -> 0 <= n ->
  let rows :=
    take (Z.to_nat n) (drop (Z.to_nat (_rindex self)) (_results self)) in
  fetchmany self (Some n) = (Ok rows, set_rindex (_rindex self + n) self) /\
  (forall i : nat,
      (i < length rows)%nat ->
      rows !! i = _results self !! (Z.to_nat (_rindex self) + i)%nat) /\
  len rows <= n /\
  (_rindex self + n <= len (_results self) -> len rows = n) /\
  (len (_results self) < _rindex self + n ->
   len rows = Z.max 0 (len (_results self) - _rindex self) /\
   len (_results self) < _rindex (fetchmany self (Some n)).2).
Proof.
  intros Hpos Hn rows.
  assert (length rows =
            Nat.min (Z.to_nat n)
                    (length (_results self) - Z.to_nat (_rindex self))) as Hlen.
  { unfold rows. by rewrite length_take, length_drop. }
  split; [by apply fetchmany_rows|]. split; [|unfold len in *; repeat split].
  - intros i Hi. unfold rows in *.
    rewrite lookup_take_lt by lia. by rewrite lookup_drop.
  - lia.
  - lia.
  - lia.
  - rewrite fetchmany_rows by done. simpl. lia.
Qed.

Lemma fetchmany_advances_by_size_witness :
  fetchmany (buffered [[Py.Int 297]; [Py.Int 392]; [Py.Int 401]]) (Some 2) =
    (Ok [[Py.Int 297]; [Py.Int 392]],
     set_rindex 2 (buffered [[Py.Int 297]; [Py.Int 392]; [Py.Int 401]])).
Proof.
  apply (fetchmany_advances_by_size
           (buffered [[Py.Int 297]; [Py.Int 392]; [Py.Int 401]]) 2);
    simpl; lia.
Defined.

(** C2 as it is written fails: one row is left and five are asked for;
    one row is returned and the position moves by five, beyond the end of
    the buffer. *)
Lemma fetchmany_advances_by_returned_counterexample :
  let self := buffered [[Py.Int 297; Py.Int 0]] in
  exists rows self',
    fetchmany self (Some 5) = (Ok rows, self') /\
    len rows = 1 /\
    _rindex self' - _rindex self = 5 /\
    _rindex self' - _rindex self <> len rows /\
    len (_results self') < _rindex self'.
Proof.
  eexists _, _. split; [reflexivity|]. vm_compute. repeat split; congruence.
Qed.

Lemma fetchall_rows self :
  0 <= _rindex self ->
  fetchall self =
    (Ok (drop (Z.to_nat (_rindex self)) (_results self)),
     set_rindex (len (_results self)) self).
Proof.
  intros Hpos. unfold fetchall. rewrite set_rindex_results.
  by rewrite slice_to_end.
Qed.

Lemma fetchmany_all_rows self :
  0 <= _rindex self ->
  fetchmany self None =
    (Ok (drop (Z.to_nat (_rindex self)) (_results self)),
     set_rindex (len (_results self)) self).
Proof.
  intros Hpos. unfold fetchmany. rewrite set_rindex_results.
  by rewrite slice_to_end.
Qed.

(** ** The cursor: sequences of fetches *)

Lemma fetch_results self f : _results (fetch self f).2 = _results self.
Proof.
  destruct f as [|size|]; simpl; [|done..].
  unfold fetchone.
  destruct (_rindex self <? len (_results self)); [|done].
  by destruct (Py.index _ _).
Qed.

Lemma fetches_results self fs : _results (fetches self fs).2 = _results self.
Proof.
  revert self. induction fs as [|f fs IH]; intros self; simpl; [done|].
  pose proof (fetch_results self f) as Hf.
  destruct (fetch self f) as [r self1]. simpl in Hf.
  specialize (IH self1). destruct (fetches self1 fs) as [rs self2].
  simpl in *. congruence.
Qed.

(** With nothing left to read every fetch comes back empty. *)
Lemma fetch_at_end self f :
  len (_results self) <= _rindex self -> size_ok f ->
  (fetch self f).1 = OneRow None \/ (fetch self f).1 = Rows [].
Proof.
  intros Hend Hf. pose proof (len_nonneg (_results self)) as Hlen.
  destruct f as [|[n|]|]; simpl in *.
  - left. by rewrite fetchone_at_end.
  - right. by rewrite slice_past_end by lia.
  - right. by rewrite slice_past_end by lia.
  - right. by rewrite slice_past_end by lia.
Qed.

(** One fetch from a position that is not negative. *)
Lemma fetch_step self f :
  0 <= _rindex self -> size_ok f ->
  0 <= _rindex (fetch self f).2 /\
  (forall e, (fetch self f).1 <> Raised e) /\
  position self <= position (fetch self f).2 /\
  (f = FetchOne \/ (exists n, f = FetchMany (Some n)) ->
   _rindex self <= _rindex (fetch self f).2).
Proof.
  intros Hpos Hf. pose proof (len_nonneg (_results self)) as Hlen.
  unfold position. rewrite fetch_results.
  destruct f as [|[n|]|]; simpl in Hf; unfold fetch.
  - destruct (Z.lt_ge_cases (_rindex self) (len (_results self))) as [Hlt|Hge].
    + destruct (lookup_lt_is_Some_2 (_results self) (Z.to_nat (_rindex self)))
        as [row Hrow]; [unfold len in Hlt; lia|].
      rewrite (fetchone_row self row) by done.
      simpl. repeat split; try done; lia.
    + rewrite fetchone_at_end by done. simpl. repeat split; try done; lia.
  - rewrite fetchmany_rows by done. simpl. repeat split; try done; lia.
  - rewrite fetchmany_all_rows by done. simpl. repeat split; try done; [lia|].
    intros [?|[? ?]]; done.
  - rewrite fetchall_rows by done. simpl. repeat split; try done; [lia|].
    intros [?|[? ?]]; done.
Qed.





(** ** The cursor: iteration *)

Lemma drain_suspended self rows i fuel :
  (length rows - i < fuel)%nat ->
  drain fuel self (Suspended rows i) = (drop i rows, Finished).
Proof.
  revert i. induction fuel as [|fuel IH]; intros i Hfuel; [lia|].
  simpl. unfold loop_step.
  destruct (rows !! i) as [row|] eqn:Hrow.
  - pose proof (lookup_lt_Some _ _ _ Hrow) as Hlt.
    rewrite IH by lia. by rewrite (drop_S _ _ _ Hrow).
  - apply lookup_ge_None in Hrow. by rewrite drop_ge.
Qed.

Lemma drain_created self fuel :
  (length (_results self) < fuel)%nat ->
  drain fuel self (__iter__ self) = (_results self, Finished).
Proof.
  intros Hfuel. destruct fuel as [|fuel]; [lia|].
  simpl. unfold loop_step.
  destruct (_results self !! 0%nat) as [row|] eqn:Hrow.
  - pose proof (lookup_lt_Some _ _ _ Hrow) as Hlt.
    rewrite drain_suspended by lia. by rewrite <- (drop_S _ _ _ Hrow).
  - apply lookup_ge_None in Hrow.
    destruct (_results self); [done|simpl in Hrow; lia].
Qed.

(** C9: iterating a cursor yields the rows of its buffer, all of them, in
    order and from the first, whatever the read position is and whatever
    fetches were made before; it ends after as many steps as the buffer
    has rows, and an iterator that has ended yields nothing more. *)
Theorem iter_yields_results (self : CloudSpannerCursor)
        (fs : list fetch_call) (fuel : nat) :
  (length (_results self) < fuel)%nat ->
  let self' := (fetches self fs).2 in
  drain fuel self (__iter__ self) = (_results self, Finished) /\
  drain fuel self' (__iter__ self') = (_results self, Finished) /\
  drain fuel self' Finished = ([], Finished).
Proof.
  intros Hfuel self'.
  assert (_results self' = _results self) as Hsame by apply fetches_results.
  split; [by apply drain_created|]. split.
  - rewrite <- Hsame. apply drain_created. by rewrite Hsame.
  - destruct fuel; [lia|done].
Qed.

Lemma iter_yields_results_witness :
  let self := buffered [[Py.Int 392; Py.Int 0]; [Py.Int 392; Py.Int 1]] in
  let self' := (fetches self [FetchOne; FetchMany (Some 4)]).2 in
  drain 3 self' (__iter__ self') =
    ([[Py.Int 392; Py.Int 0]; [Py.Int 392; Py.Int 1]], Finished).
Proof.
  intros self self'.
  apply (iter_yields_results self [FetchOne; FetchMany (Some 4)] 3).
  simpl. lia.
Defined.

(** ** The cursor: execute *)

(** The handle of the database plays no part in a fetch. *)
Lemma fetch_set_database self f :
  (fetch (set_database self) f).1 = (fetch self f).1.
Proof.
  destruct f as [|size|]; [|reflexivity..].
  unfold fetch, fetchone. simpl.
  destruct (_rindex self <? len (_results self)); [|done].
  by destruct (Py.index _ _).
Qed.

Section Execute.
Context `{Backend}.
Implicit Types (self : CloudSpannerCursor) (w : world).

Lemma call_calls w op : calls (call w op).2 = (calls w ++ [op])%list.
Proof. unfold call. by destruct (perform (state w) op). Qed.

(** C1, as the code has it: when execute of a statement parsed as an
    INSERT succeeds, one batch insert of one row has been made, and the
    buffered results, the read position and the descriptions of the
    cursor are what they were: every fetch returns what it would have
    returned before the INSERT.  The fetches come back empty when nothing
    was left to read, as on a new cursor. *)
Theorem execute_insert_keeps_results self w sql parameters
        table columns values self' w' :
  parse_sql sql parameters = Ok (Some (InsertSQL table columns values)) ->
  execute self w sql parameters = (Ok tt, self', w') ->
  calls w' = (calls w ++ [BatchInsert table columns [values]])%list /\
  _results self' = _results self /\
  _rindex self' = _rindex self /\
  _descriptions self' = _descriptions self /\
  (forall f, (fetch self' f).1 = (fetch self f).1) /\
  (len (_results self) <= _rindex self ->
   forall f, size_ok f ->
     (fetch self' f).1 = OneRow None \/ (fetch self' f).1 = Rows []).
Proof.
  intros Hparse. unfold execute. rewrite Hparse.
  pose proof (call_calls w (BatchInsert table columns [values])) as Hcalls.
  destruct (call w (BatchInsert table columns [values])) as [[rows|e] w1];
    intros [= <- <-]; simpl in Hcalls.
  split; [done|]. split; [done|]. split; [done|]. split; [done|]. split.
  - apply fetch_set_database.
  - intros Hend f Hf. by apply (fetch_at_end (set_database self)).
Qed.

(** C3: when the statement, after the substitution of its parameters,
    matches neither the INSERT pattern nor the SELECT pattern, execute
    raises the error that names the SQL text it was given, calls the
    service not at all, and leaves the buffered results, the read position
    and the descriptions of the cursor as they were. *)
Theorem execute_unsupported self w sql parameters text :
  substitute sql parameters = Ok text ->
  Re.rmatch INSERT_PATTERN text = None ->
  Re.rmatch SELECT_PATTERN text = None ->
  exists self',
    execute self w sql parameters =
      (Raise (ValueError ("SQL query " ++ sql
                            ++ " is not supported for Cloud Spanner.")),
       self', w) /\
    _results self' = _results self /\
    _rindex self' = _rindex self /\
    _descriptions self' = _descriptions self.
Proof.
  intros Hsub Hinsert Hselect. exists (set_database self).
  unfold execute, parse_sql. rewrite Hsub. simpl.
  rewrite Hinsert, Hselect. done.
Qed.

End Execute.

Lemma execute_insert_keeps_results_witness :
  let self := buffered [[Py.Int 297; Py.Int 0]] in
  let w := memory_world [[Py.Int 297; Py.Int 0]] in
  let parameters :=
    [Py.Int 1; Py.Int 2; Py.Int 3; Py.Int 4; Py.Str "p"; Py.Int 5] in
  let out := execute self w INSERT_EVENT_LOG parameters in
  _results out.1.2 = _results self /\ _rindex out.1.2 = _rindex self.
Proof.
  intros self w parameters out.
  destruct (execute_insert_keeps_results
              self w INSERT_EVENT_LOG parameters
              "EventLogs"
              ["rowid"; "customer_number"; "run_id"; "event_log_id";
               "path"; "offset"]
              ["1"; "2"; "3"; "4"; Py.dquote ++ "p" ++ Py.dquote; "5"]
              out.1.2 out.2)
    as (_ & Hresults & Hrindex & _).
  - vm_compute. reflexivity.
  - vm_compute. reflexivity.
  - split; assumption.
Defined.

(** C1 as it is written fails: a SELECT buffers one row, the INSERT that
    follows succeeds, and the fetches after it still return that row. *)
Lemma insert_keeps_results_counterexample :
  let row := [Py.Int 297; Py.Int 0] in
  let out1 :=
    execute (new_cursor "tb" "jlewi-tb") (memory_world [row])
            SELECT_EVENT_LOG [Py.Int 297; Py.Int 0] in
  let parameters :=
    [Py.Int 1; Py.Int 2; Py.Int 3; Py.Int 4; Py.Str "p"; Py.Int 5] in
  let out2 := execute out1.1.2 out1.2 INSERT_EVENT_LOG parameters in
  out1.1.1 = Ok tt /\
  (exists table columns values,
      parse_sql INSERT_EVENT_LOG parameters =
        Ok (Some (InsertSQL table columns values))) /\
  out2.1.1 = Ok tt /\
  (fetchone out2.1.2).1 = Ok (Some row) /\
  (fetchmany out2.1.2 (Some 10)).1 = Ok [row] /\
  (fetchall out2.1.2).1 = Ok [row].
Proof.
  intros row out1 parameters out2.
  split; [vm_compute; reflexivity|]. split.
  { eexists _, _, _. vm_compute. reflexivity. }
  repeat split; vm_compute; reflexivity.
Qed.

Lemma execute_unsupported_witness :
  let self := buffered [[Py.Int 297; Py.Int 0]] in
  let w := memory_world [[Py.Int 297; Py.Int 0]] in
  exists self',
    execute self w UPDATE_EVENT_LOG [Py.Int 23; Py.Int 297] =
      (Raise (ValueError ("SQL query " ++ UPDATE_EVENT_LOG
                            ++ " is not supported for Cloud Spanner.")),
       self', w) /\
    _results self' = _results self /\
    _rindex self' = _rindex self /\
    _descriptions self' = _descriptions self.
Proof.
  intros self w.
  apply (execute_unsupported
           self w UPDATE_EVENT_LOG [Py.Int 23; Py.Int 297]
           "UPDATE EventLogs SET offset = 23 WHERE rowid = 297").
  - vm_compute. reflexivity.
  - vm_compute. reflexivity.
  - vm_compute. reflexivity.
Defined.

(** ** A run of the cursor

    An INSERT, then a SELECT that finds two rows: the row count is two,
    fetchone returns the rows one after the other and then [None], and a
    fetchall right after the SELECT returns both rows and leaves the read
    position at the end. *)
Example insert_then_select :
  let row := [Py.Int 297; Py.Int 0] in
  let parameters :=
    [Py.Int 1; Py.Int 2; Py.Int 3; Py.Int 4; Py.Str "p"; Py.Int 5] in
  let out1 :=
    execute (new_cursor "tb" "jlewi-tb") (memory_world [row])
            INSERT_EVENT_LOG parameters in
  let out2 :=
    execute out1.1.2 out1.2 SELECT_EVENT_LOG [Py.Int 297; Py.Int 0] in
  let c := out2.1.2 in
  let c1 := (fetchone c).2 in
  let c2 := (fetchone c1).2 in
  out1.1.1 = Ok tt /\ out2.1.1 = Ok tt /\
  rowcount c = 2 /\
  map head (description c) = [Some (Some "rowid"); Some (Some "customer_number")] /\
  (fetchone c).1 = Ok (Some row) /\
  (exists inserted, (fetchone c1).1 = Ok (Some inserted)) /\
  (fetchone c2).1 = Ok None /\
  length (calls out2.2) = 3%nat /\
  (exists rows, (fetchall c).1 = Ok rows /\ length rows = 2%nat) /\
  _rindex (fetchall c).2 = 2.
Proof.
  vm_compute. repeat split; try reflexivity; eexists; try split; reflexivity.
Qed.

(** * More of the two modules *)

(** ** schema.py: the dicts behind [get_column] and [get_table] *)

Section Dict.
Context {A : Type} (key : A -> string).
Implicit Types (d : gmap string A) (l : list A) (k : string).

Local Abbreviation build := (foldl (fun d x => <[key x := x]> d)).

Lemma build_lookup_absent d l k :
  k ∉ map key l -> build d l !! k = d !! k.
Proof.
  revert d. induction l as [|x l IH]; intros d Hk; simpl; [done|].
  apply not_elem_of_cons in Hk as [Hx Hl].
  rewrite IH by done. by rewrite lookup_insert_ne.
Qed.

(** A key is bound to the last element that carries it. *)
Lemma build_lookup_last d l1 x l2 :
  key x ∉ map key l2 -> build d (l1 ++ x :: l2) !! key x = Some x.
Proof.
  intros Hx. rewrite foldl_app. simpl.
  rewrite build_lookup_absent by done. by rewrite lookup_insert_eq.
Qed.

Lemma build_lookup_cases d l k :
  ((k ∉ map key l) /\ build d l !! k = d !! k) \/
  (exists l1 x l2,
      l = (l1 ++ x :: l2)%list /\ key x = k /\ (k ∉ map key l2) /\
      build d l !! k = Some x).
Proof.
  induction l as [|y l IH] using rev_ind.
  - left. split; [apply not_elem_of_nil|done].
  - rewrite foldl_snoc. destruct (decide (key y = k)) as [<-|Hne].
    + right. exists l, y, []. rewrite lookup_insert_eq.
      repeat split; [apply not_elem_of_nil].
    + rewrite lookup_insert_ne by done.
      destruct IH as [[Hk Hd]|(l1 & x & l2 & -> & Hx & Hk & Hd)].
      * left. split; [|done]. rewrite map_app.
        apply not_elem_of_app. split; [done|].
        simpl. apply not_elem_of_cons. split; [done|apply not_elem_of_nil].
      * right. exists l1, x, (l2 ++ [y])%list. rewrite <- app_assoc.
        repeat split; [done| |done].
        rewrite map_app. apply not_elem_of_app. split; [done|].
        simpl. apply not_elem_of_cons. split; [done|apply not_elem_of_nil].
Qed.

Lemma build_lookup_NoDup l x :
  NoDup (map key l) -> x ∈ l -> build ∅ l !! key x = Some x.
Proof.
  intros Hnd Hx. apply list_elem_of_split in Hx as (l1 & l2 & ->).
  apply build_lookup_last.
  rewrite map_app in Hnd. apply NoDup_app in Hnd as (_ & _ & Hnd).
  simpl in Hnd. by apply NoDup_cons in Hnd as [? _].
Qed.

End Dict.

(** X1: [get_column] finds the last column of the table that carries the
    name, and raises [KeyError] with the name exactly when no column of
    the table carries it. *)
Theorem get_column_last (t : TableSchema) (name : string) :
  match get_column t name with
  | Found c =>
      exists l1 l2,
        columns t = (l1 ++ c :: l2)%list /\ c_name c = name /\
        (name ∉ map c_name l2)
  | KeyError k => k = name /\ (name ∉ map c_name (columns t))
  end.
Proof.
  unfold get_column, getitem, _name_to_column.
  destruct (build_lookup_cases c_name ∅ (columns t) name)
    as [[Hk ->]|(l1 & c & l2 & Hl & Hc & Hk & ->)].
  - by rewrite lookup_empty.
  - by exists l1, l2.
Qed.

(** X2: in a table whose column names are pairwise different,
    [get_column] gives back every column under its own name. *)
Theorem get_column_of_column (t : TableSchema) (c : ColumnSchema) :
  NoDup (map c_name (columns t)) -> c ∈ columns t ->
  get_column t (c_name c) = Found c.
Proof.
  intros Hnd Hc. unfold get_column, getitem, _name_to_column.
  by rewrite (build_lookup_NoDup c_name _ c).
Qed.

Lemma get_column_of_column_witness :
  get_column EVENT_LOGS_TABLE "path" =
    Found (column_not_null "path" (StringColumnType (Some 1023))).
Proof.
  apply (get_column_of_column
           EVENT_LOGS_TABLE
           (column_not_null "path" (StringColumnType (Some 1023)))).
  - apply (bool_decide_unpack _). vm_compute. exact I.
  - unfold EVENT_LOGS_TABLE, columns. repeat constructor.
Defined.

Lemma TABLES_names : NoDup (map t_name TABLES).
Proof. apply (bool_decide_unpack _). vm_compute. exact I. Qed.

(** X3: [get_table] gives back every table of [TABLES] under its own
    name, and raises [KeyError] with the name for every other name. *)
Theorem get_table_of_table :
  (forall t, t ∈ TABLES -> get_table (t_name t) = Found t) /\
  (forall name, name ∉ map t_name TABLES -> get_table name = KeyError name).
Proof.
  unfold get_table, getitem, TABLES_DICT. split.
  - intros t Ht. by rewrite (build_lookup_NoDup t_name _ t TABLES_names Ht).
  - intros name Hname. by rewrite build_lookup_absent, lookup_empty.
Qed.

Lemma get_table_of_table_witness :
  get_table "Runs" = Found RUNS_TABLE /\
  get_table "runs" = KeyError "runs".
Proof.
  split.
  - apply (proj1 get_table_of_table RUNS_TABLE).
    unfold TABLES. repeat constructor.
  - apply (proj2 get_table_of_table "runs").
    apply (bool_decide_unpack _). vm_compute. exact I.
Defined.

(** X4: the tables and indexes of the module fit together.  In every
    table of [TABLES] the column names are pairwise different, every key
    is the name of a column and the DDL is generated; every index of
    [INDEXES] names a table that [get_table] finds and columns that
    [get_column] finds in that table. *)
Theorem registry_consistent :
  (forall t, t ∈ TABLES ->
     NoDup (map c_name (columns t)) /\
     (forall k, k ∈ keys t -> exists c, get_column t k = Found c) /\
     (exists ddl, to_spanner_ddl (Table t) = Ok ddl)) /\
  (forall i, i ∈ INDEXES ->
     exists t,
       get_table (i_table i) = Found t /\
       (forall k, k ∈ i_columns i -> exists c, get_column t k = Found c)).
Proof.
  split.
  - apply Forall_forall. unfold TABLES.
    repeat (apply Forall_cons; split;
            [split; [apply (bool_decide_unpack _); vm_compute; exact I|];
             split; [apply Forall_forall; simpl;
                     repeat (apply Forall_cons; split;
                             [eexists; vm_compute; reflexivity|]);
                     constructor
                    |eexists; vm_compute; reflexivity]|]).
    constructor.
  - apply Forall_forall. unfold INDEXES.
    repeat (apply Forall_cons; split;
            [eexists; split; [vm_compute; reflexivity|];
             apply Forall_forall; simpl;
             repeat (apply Forall_cons; split;
                     [eexists; vm_compute; reflexivity|]);
             constructor|]).
    constructor.
Qed.

(** ** spanner.py: what the fetches deliver *)

(** One fetch hands over the rows between the old and the new position. *)
Lemma fetch_delivers self f :
  0 <= _rindex self -> size_ok f ->
  (delivered (fetch self f).1
     ++ drop (Z.to_nat (_rindex (fetch self f).2)) (_results self))%list =
    drop (Z.to_nat (_rindex self)) (_results self).
Proof.
  intros Hpos Hf.
  destruct f as [|[n|]|]; simpl in Hf; unfold fetch.
  - destruct (Z.lt_ge_cases (_rindex self) (len (_results self))) as [Hlt|Hge].
    + destruct (lookup_lt_is_Some_2 (_results self) (Z.to_nat (_rindex self)))
        as [row Hrow]; [unfold len in Hlt; lia|].
      rewrite (fetchone_row self row) by done. simpl.
      rewrite (drop_S _ _ _ Hrow). do 2 f_equal. lia.
    + by rewrite fetchone_at_end.
  - rewrite fetchmany_rows by done. simpl.
    replace (Z.to_nat (_rindex self + n))
      with (Z.to_nat (_rindex self) + Z.to_nat n)%nat by lia.
    rewrite <- drop_drop. apply firstn_skipn.
  - rewrite fetchmany_all_rows by done. simpl. unfold len.
    rewrite Nat2Z.id, drop_all. apply app_nil_r.
  - rewrite fetchall_rows by done. simpl. unfold len.
    rewrite Nat2Z.id, drop_all. apply app_nil_r.
Qed.

Lemma fetches_deliver self fs :
  0 <= _rindex self -> Forall size_ok fs ->
  0 <= _rindex (fetches self fs).2 /\
  (concat (map delivered (fetches self fs).1)
     ++ drop (Z.to_nat (_rindex (fetches self fs).2)) (_results self))%list =
    drop (Z.to_nat (_rindex self)) (_results self).
Proof.
  intros Hpos Hfs. revert self Hpos.
  induction Hfs as [|f fs Hf _ IH]; intros self Hpos; simpl; [done|].
  pose proof (fetch_delivers self f Hpos Hf) as Hone.
  pose proof (fetch_results self f) as Hres.
  destruct (fetch_step self f Hpos Hf) as (Hpos1 & _).
  destruct (fetch self f) as [r self1]. simpl in *.
  destruct (IH self1 Hpos1) as [Hpos2 Hrest]. rewrite Hres in Hrest.
  destruct (fetches self1 fs) as [rs self2]. simpl in *.
  split; [done|]. rewrite <- app_assoc. by rewrite Hrest.
Qed.

(** X5: along any sequence of fetchone, fetchmany (of a size that is not
    negative, or without a size) and fetchall calls, the rows handed over
    so far followed by the rows from the read position on are the rows
    that were unread at the start: no row is skipped and none comes twice.
    When the sequence ends with a fetchall, the rows handed over are
    exactly the rows that were unread. *)
Theorem fetches_deliver_unread (self : CloudSpannerCursor)
        (fs : list fetch_call) :
  0 <= _rindex self -> Forall size_ok fs ->
  let unread := drop (Z.to_nat (_rindex self)) (_results self) in
  (concat (map delivered (fetches self fs).1)
     ++ drop (Z.to_nat (_rindex (fetches self fs).2)) (_results self))%list =
    unread /\
  concat (map delivered (fetches self (fs ++ [FetchAll])%list).1) = unread.
Proof.
  intros Hpos Hfs unread. split; [by apply fetches_deliver|].
  assert (Forall size_ok (fs ++ [FetchAll])%list) as Hall.
  { apply Forall_app. split; [done|]. by repeat constructor. }
  destruct (fetches_deliver self _ Hpos Hall) as [Hpos' Heq].
  unfold unread. rewrite <- Heq.
  assert (_rindex (fetches self (fs ++ [FetchAll])%list).2 =
            len (_results self)) as ->.
  { clear. revert self.
    induction fs as [|f fs IH]; intros self; simpl; [done|].
    pose proof (fetch_results self f) as Hres.
    destruct (fetch self f) as [r self1]. simpl in Hres.
    specialize (IH self1).
    destruct (fetches self1 (fs ++ [FetchAll])%list) as [rs self2].
    simpl in *. congruence. }
  unfold len. rewrite Nat2Z.id, drop_all. by rewrite app_nil_r.
Qed.

Lemma fetches_deliver_unread_witness :
  let self :=
    set_rindex 1 (buffered [[Py.Int 1]; [Py.Int 2]; [Py.Int 3]; [Py.Int 4]]) in
  concat (map delivered
            (fetches self [FetchOne; FetchMany (Some 5); FetchOne; FetchAll]).1) =
    [[Py.Int 2]; [Py.Int 3]; [Py.Int 4]].
Proof.
  intros self.
  apply (fetches_deliver_unread self [FetchOne; FetchMany (Some 5); FetchOne]).
  - simpl. lia.
  - repeat constructor. simpl. lia.
Defined.

(** X6: two fetchmany calls in a row hand over what one call of the
    summed size hands over, and leave the cursor as that call leaves it. *)
Theorem fetchmany_twice (self : CloudSpannerCursor) (a b : Z) :
  0 <= _rindex self -> 0 <= a -> 0 <= b ->
  exists rows1 rows2 self1 self2,
    fetchmany self (Some a) = (Ok rows1, self1) /\
    fetchmany self1 (Some b) = (Ok rows2, self2) /\
    fetchmany self (Some (a + b)) = (Ok (rows1 ++ rows2)%list, self2).
Proof.
  intros Hpos Ha Hb. eexists _, _, _, _.
  split; [by apply fetchmany_rows|].
  split; [apply fetchmany_rows; simpl; lia|].
  rewrite fetchmany_rows by lia. simpl. f_equal.
  - f_equal.
    replace (Z.to_nat (a + b)) with (Z.to_nat a + Z.to_nat b)%nat by lia.
    rewrite <- take_take_drop. rewrite drop_drop. do 3 f_equal. lia.
  - unfold set_rindex. simpl. f_equal. lia.
Qed.

Lemma fetchmany_twice_witness :
  let self := buffered [[Py.Int 1]; [Py.Int 2]; [Py.Int 3]; [Py.Int 4]] in
  exists rows1 rows2 self1 self2,
    fetchmany self (Some 1) = (Ok rows1, self1) /\
    fetchmany self1 (Some 2) = (Ok rows2, self2) /\
    fetchmany self (Some (1 + 2)) = (Ok (rows1 ++ rows2)%list, self2).
Proof.
  intros self. apply (fetchmany_twice self 1 2); simpl; lia.
Defined.

(** X7: a fetchmany of a negative size [-k], with [k] not beyond the read
    position, returns no row and takes the read position [k] rows back:
    the rows before the position are fetched again by the next call. *)
Theorem fetchmany_negative_rewinds (self : CloudSpannerCursor) (k : Z) :
  0 < k <= _rindex self ->
  fetchmany self (Some (- k)) = (Ok [], set_rindex (_rindex self - k) self) /\
  forall n, 0 <= n ->
    (fetchmany (set_rindex (_rindex self - k) self) (Some n)).1 =
      Ok (take (Z.to_nat n) (drop (Z.to_nat (_rindex self - k)) (_results self))).
Proof.
  intros [Hk Hp]. split.
  - unfold fetchmany. rewrite set_rindex_results.
    change (_rindex self + - k) with (_rindex self - k).
    cut (Py.slice (_results self) (_rindex self) (_rindex self - k) = []);
      [by intros ->|].
    unfold Py.slice, Py.slice_bound.
    destruct (Z.ltb_spec (_rindex self) 0) as [?|_]; [lia|].
    destruct (Z.ltb_spec (_rindex self - k) 0) as [?|_]; [lia|].
    replace (Z.to_nat _) with 0%nat by lia. done.
  - intros n Hn. rewrite fetchmany_rows by (simpl; lia). done.
Qed.

Lemma fetchmany_negative_rewinds_witness :
  let self := set_rindex 2 (buffered [[Py.Int 1]; [Py.Int 2]; [Py.Int 3]]) in
  fetchmany self (Some (- 2)) = (Ok [], set_rindex 0 self) /\
  (fetchmany (set_rindex 0 self) (Some 2)).1 = Ok [[Py.Int 1]; [Py.Int 2]].
Proof.
  intros self.
  destruct (fetchmany_negative_rewinds self 2) as [Hback Hagain].
  - simpl. lia.
  - split; [exact Hback|]. apply (Hagain 2). lia.
Defined.

(** X8: with the read position below [-len], which a fetchmany of a
    negative size can leave behind, fetchone raises [IndexError], and the
    read position has moved on by one all the same. *)
Theorem fetchone_index_error (self : CloudSpannerCursor) :
  _rindex self < - len (_results self) ->
  fetchone self =
    (Raise (IndexError "list index out of range"),
     set_rindex (_rindex self + 1) self).
Proof.
  intros Hneg. pose proof (len_nonneg (_results self)) as Hlen.
  unfold fetchone.
  destruct (Z.ltb_spec (_rindex self) (len (_results self))) as [_|?]; [|lia].
  cbn [_rindex _results set_rindex]. rewrite Z.add_simpl_r.
  unfold Py.index, len in *.
  destruct (Z.ltb_spec (_rindex self) 0) as [_|?]; [|lia].
  destruct (Z.ltb_spec (_rindex self + Z.of_nat (length (_results self))) 0)
    as [_|?]; [|lia].
  done.
Qed.

Lemma fetchone_index_error_witness :
  let self := (fetchmany (buffered [[Py.Int 1]]) (Some (- 3))).2 in
  fetchone self =
    (Raise (IndexError "list index out of range"), set_rindex (- 2) self).
Proof.
  intros self. apply (fetchone_index_error self). vm_compute. reflexivity.
Defined.

(** ** spanner.py: iteration while the cursor changes *)

(** X9: an iterator that has not been stepped reads the buffer the cursor
    has at the first step, also one that a later execute has put there;
    once it has been stepped it goes on over the list it started on,
    whatever the cursor buffers afterwards. *)
Theorem iter_binds_at_first_step (self later : CloudSpannerCursor)
        (fuel : nat) :
  (length (_results self) < fuel)%nat ->
  (length (_results later) < fuel)%nat ->
  drain fuel later (__iter__ self) = (_results later, Finished) /\
  (next self (__iter__ self)).1 = _results self !! 0%nat /\
  drain fuel later (next self (__iter__ self)).2 =
    (drop 1 (_results self), Finished).
Proof.
  intros Hself Hlater. split; [by apply (drain_created later)|].
  simpl. unfold loop_step.
  destruct (_results self !! 0%nat) as [row|] eqn:Hrow; simpl.
  - split; [done|]. apply drain_suspended. lia.
  - split; [done|]. apply lookup_ge_None in Hrow.
    rewrite drop_ge by lia. destruct fuel; [lia|done].
Qed.

Lemma iter_binds_at_first_step_witness :
  let self := buffered [[Py.Int 1]; [Py.Int 2]] in
  let later := buffered [[Py.Int 7]] in
  drain 3 later (__iter__ self) = ([[Py.Int 7]], Finished) /\
  (next self (__iter__ self)).1 = Some [Py.Int 1] /\
  drain 3 later (next self (__iter__ self)).2 = ([[Py.Int 2]], Finished).
Proof.
  intros self later.
  apply (iter_binds_at_first_step self later 3); simpl; lia.
Defined.

(** ** spanner.py: execute and executemany *)

Section ExecuteMore.
Context `{Backend}.
Implicit Types (self : CloudSpannerCursor) (w : world).

Lemma call_state w op :
  (call w op).1 = (perform (state w) op).1 /\
  state (call w op).2 = (perform (state w) op).2.
Proof. unfold call. by destruct (perform (state w) op). Qed.

(** X10: an execute that raises, whatever the reason, leaves the buffered
    results, the read position and the descriptions as they were; and
    when the statement was not parsed as an INSERT or a SELECT the service
    has not been called. *)
Theorem execute_raise_keeps_cursor self w sql parameters e self' w' :
  execute self w sql parameters = (Raise e, self', w') ->
  _results self' = _results self /\
  _rindex self' = _rindex self /\
  _descriptions self' = _descriptions self /\
  ((forall s, parse_sql sql parameters <> Ok (Some s)) -> w' = w).
Proof.
  unfold execute.
  destruct (parse_sql sql parameters) as [[[table cols vals|query table cols]|]|e0].
  - destruct (call w _) as [[rows|e1] w1]; intros [= <- <- <-].
    repeat split. intros Hno. by destruct (Hno (InsertSQL table cols vals)).
  - destruct (call w SessionCreate) as [[r0|e1] w1].
    + destruct (call w1 _) as [[rows|e2] w2]; intros [= <- <- <-].
      repeat split. intros Hno. by destruct (Hno (SelectSQL query table cols)).
    + intros [= <- <- <-].
      repeat split. intros Hno. by destruct (Hno (SelectSQL query table cols)).
  - intros [= <- <- <-]. done.
  - intros [= <- <- <-]. done.
Qed.

(** X11: when execute of a statement parsed as a SELECT succeeds, a
    session has been created and the raw query run on it, in that order;
    the buffer holds the rows the service answered, the read position is
    zero, the row count is their number, there is one description per
    parsed column, its name first and six [None] after it, and a fetchall
    returns the rows. *)
Theorem execute_select_buffers self w sql parameters query table cols
        self' w' :
  parse_sql sql parameters = Ok (Some (SelectSQL query table cols)) ->
  execute self w sql parameters = (Ok tt, self', w') ->
  exists r0 s1 rows,
    perform (state w) SessionCreate = (Ok r0, s1) /\
    perform s1 (ExecuteSql query) = (Ok rows, state w') /\
    calls w' = (calls w ++ [SessionCreate; ExecuteSql query])%list /\
    _results self' = rows /\
    _rindex self' = 0 /\
    rowcount self' = len rows /\
    description self' = map describe cols /\
    fetchall self' = (Ok rows, set_rindex (len rows) self').
Proof.
  intros Hparse. unfold execute. rewrite Hparse. unfold call.
  destruct (perform (state w) SessionCreate) as [[r0|e1] s1] eqn:Hcreate;
    [|intros [=]].
  simpl.
  destruct (perform s1 (ExecuteSql query)) as [[rows|e2] s2] eqn:Hquery;
    intros [= <- <-].
  exists r0, s1, rows. simpl.
  split; [done|]. split; [done|].
  split; [by rewrite <- app_assoc|].
  split; [done|]. split; [done|]. split; [done|]. split; [done|].
  rewrite fetchall_rows by (simpl; lia). done.
Qed.

Lemma executemany_app self w sql ps1 ps2 :
  executemany self w sql (ps1 ++ ps2)%list =
    match executemany self w sql ps1 with
    | (Ok _, self1, w1) => executemany self1 w1 sql ps2
    | (Raise e, self1, w1) => (Raise e, self1, w1)
    end.
Proof.
  revert self w. induction ps1 as [|p ps1 IH]; intros self w; simpl; [done|].
  destruct (execute self w sql p) as [[[[]|e] self1] w1]; [apply IH|done].
Qed.

(** X12: executemany runs the statement once per tuple of parameters,
    in order, and stops at the first execute that raises: the tuples
    before it have been executed, that exception is raised, and the
    tuples after it are not looked at. *)
Theorem executemany_stops_at_first_raise self w sql ps1 p ps2
        self1 w1 e self2 w2 :
  executemany self w sql ps1 = (Ok tt, self1, w1) ->
  execute self1 w1 sql p = (Raise e, self2, w2) ->
  executemany self w sql (ps1 ++ p :: ps2)%list = (Raise e, self2, w2).
Proof.
  intros Hbefore Hraise. rewrite executemany_app, Hbefore. simpl.
  by rewrite Hraise.
Qed.

(** X13: when every tuple of parameters makes the statement an INSERT and
    executemany succeeds, the service has got one batch insert of one row
    per tuple, in the order of the tuples, and the buffered results and
    the read position are what they were. *)
Theorem executemany_inserts self w sql ps ops self' w' :
  Forall2 (fun p op =>
             exists table cols vals,
               parse_sql sql p = Ok (Some (InsertSQL table cols vals)) /\
               op = BatchInsert table cols [vals]) ps ops ->
  executemany self w sql ps = (Ok tt, self', w') ->
  calls w' = (calls w ++ ops)%list /\
  _results self' = _results self /\
  _rindex self' = _rindex self.
Proof.
  intros Hps. revert self w.
  induction Hps as [|p op ps ops (table & cols & vals & Hparse & ->) _ IH];
    intros self w; simpl.
  - intros [= <- <-]. by rewrite app_nil_r.
  - unfold execute at 1. rewrite Hparse.
    pose proof (call_calls w (BatchInsert table cols [vals])) as Hcalls.
    destruct (call w (BatchInsert table cols [vals])) as [[rows|e] w1];
      [|intros [=]].
    simpl in Hcalls. intros Hrest.
    destruct (IH _ _ Hrest) as (-> & -> & ->).
    rewrite Hcalls, <- app_assoc. done.
Qed.

End ExecuteMore.

Lemma execute_raise_keeps_cursor_witness :
  let self := buffered [[Py.Int 297; Py.Int 0]] in
  let w := memory_world [[Py.Int 297; Py.Int 0]] in
  let out := execute self w "SELECT * FROM EventLogs" [] in
  _results out.1.2 = _results self /\ out.2 = w.
Proof.
  intros self w out.
  destruct (execute_raise_keeps_cursor
              self w "SELECT * FROM EventLogs" []
              (ValueError
                 "Could not parse columns and table name from query: SELECT * FROM EventLogs")
              out.1.2 out.2)
    as (Hresults & _ & _ & Hworld).
  - vm_compute. reflexivity.
  - split; [exact Hresults|]. apply Hworld.
    intros s. vm_compute. discriminate.
Defined.

Lemma execute_select_buffers_witness :
  let row := [Py.Int 297; Py.Int 0] in
  let w := memory_world [row] in
  let out :=
    execute (new_cursor "tb" "jlewi-tb") w SELECT_EVENT_LOG
            [Py.Int 297; Py.Int 0] in
  exists r0 s1 rows,
    perform (state w) SessionCreate = (Ok r0, s1) /\
    perform s1 (ExecuteSql "SELECT rowid, customer_number FROM EventLogs WHERE rowid = 297 AND event_log_id = 0")
      = (Ok rows, state out.2) /\
    calls out.2 =
      (calls w ++ [SessionCreate;
                   ExecuteSql "SELECT rowid, customer_number FROM EventLogs WHERE rowid = 297 AND event_log_id = 0"])%list /\
    _results out.1.2 = rows /\
    _rindex out.1.2 = 0 /\
    rowcount out.1.2 = len rows /\
    description out.1.2 = map describe ["rowid"; "customer_number"] /\
    fetchall out.1.2 = (Ok rows, set_rindex (len rows) out.1.2).
Proof.
  intros row w out.
  apply (execute_select_buffers
           (new_cursor "tb" "jlewi-tb") w SELECT_EVENT_LOG
           [Py.Int 297; Py.Int 0] _ "EventLogs" _ out.1.2 out.2).
  - vm_compute. reflexivity.
  - vm_compute. reflexivity.
Defined.

Lemma executemany_stops_at_first_raise_witness :
  let w := memory_world [] in
  let self := new_cursor "tb" "jlewi-tb" in
  let sql := "INSERT INTO Plugins (plugin_id, name) VALUES (?, ?)" in
  let out1 := executemany self w sql [[Py.Int 1; Py.Str "scalars"]] in
  let out2 := execute out1.1.2 out1.2 sql [Py.Int 2] in
  executemany self w sql
              [[Py.Int 1; Py.Str "scalars"]; [Py.Int 2];
               [Py.Int 3; Py.Str "images"]] =
    (Raise (IndexError "tuple index out of range"), out2.1.2, out2.2).
Proof.
  intros w self sql out1 out2.
  apply (executemany_stops_at_first_raise
           self w sql [[Py.Int 1; Py.Str "scalars"]] [Py.Int 2]
           [[Py.Int 3; Py.Str "images"]] out1.1.2 out1.2).
  - vm_compute. reflexivity.
  - vm_compute. reflexivity.
Defined.

Lemma executemany_inserts_witness :
  let w := memory_world [] in
  let self := buffered [[Py.Int 297; Py.Int 0]] in
  let sql := "INSERT INTO Plugins (plugin_id, name) VALUES (?, ?)" in
  let out :=
    executemany self w sql
                [[Py.Int 1; Py.Str "scalars"]; [Py.Int 2; Py.Str "images"]] in
  calls out.2 =
    (calls w ++
       [BatchInsert "Plugins" ["plugin_id"; "name"]
                    [["1"; (Py.dquote ++ "scalars" ++ Py.dquote)%string]];
        BatchInsert "Plugins" ["plugin_id"; "name"]
                    [["2"; (Py.dquote ++ "images" ++ Py.dquote)%string]]])%list /\
  _results out.1.2 = _results self /\
  _rindex out.1.2 = _rindex self.
Proof.
  intros w self sql out.
  apply (executemany_inserts
           self w sql
           [[Py.Int 1; Py.Str "scalars"]; [Py.Int 2; Py.Str "images"]]).
  - repeat constructor; eexists _, _, _; (split; [vm_compute; reflexivity|]);
      reflexivity.
  - vm_compute. reflexivity.
Defined.

(** ** spanner.py: tables the DDL generator refuses *)

Lemma column_decls_Ok (cs : list ColumnSchema) (decls : list string) :
  column_decls cs = Ok decls -> Forall (fun c => declared (value_type c)) cs.
Proof.
  revert decls. induction cs as [|c cs IH]; intros decls; simpl;
    [constructor|].
  destruct (to_spanner_type (value_type c)) as [ty|e] eqn:Hty; [|done]. simpl.
  destruct (column_decls cs) as [rest|e]; [|done]. intros _.
  constructor; [|by eapply IH].
  intros r Hr. rewrite Hr in Hty. done.
Qed.

(** X14: the DDL of a table is generated exactly when every column has one
    of the four declared types; otherwise the generator raises the
    [ValueError] of the first column, in the order of the columns, whose
    type is not declared. *)
Theorem to_spanner_ddl_table_raises (t : TableSchema) :
  ((exists ddl, to_spanner_ddl (Table t) = Ok ddl) <->
   Forall (fun c => declared (value_type c)) (columns t)) /\
  (forall cs1 c cs2 r,
      columns t = (cs1 ++ c :: cs2)%list ->
      Forall (fun c => declared (value_type c)) cs1 ->
      value_type c = OtherColumnType r ->
      to_spanner_ddl (Table t) =
        Raise (ValueError (r ++ " is not a support ColumnType"))).
Proof.
  split; [split|].
  - intros [ddl Hddl]. simpl in Hddl.
    destruct (column_decls (columns t)) as [decls|e] eqn:Hdecls; [|done].
    by eapply column_decls_Ok.
  - intros Hcs. destruct (column_decls_declared _ Hcs) as (tys & _ & Hdecls).
    simpl. rewrite Hdecls. simpl. eauto.
  - intros cs1 c cs2 r Hcols Hcs1 Hc. simpl.
    by rewrite Hcols, (column_decls_undeclared cs1 cs2 c r).
Qed.

Lemma to_spanner_ddl_table_raises_witness :
  to_spanner_ddl
    (Table {| t_name := "Scalars";
              columns := [column "rowid" Int64ColumnType;
                          column "value" (OtherColumnType "<class 'Float64'>");
                          column "step" (OtherColumnType "<class 'Int32'>")];
              keys := ["rowid"] |}) =
    Raise (ValueError "<class 'Float64'> is not a support ColumnType").
Proof.
  apply (proj2 (to_spanner_ddl_table_raises _)
               [column "rowid" Int64ColumnType]
               (column "value" (OtherColumnType "<class 'Float64'>"))
               [column "step" (OtherColumnType "<class 'Int32'>")]
               "<class 'Float64'>").
  - reflexivity.
  - repeat constructor. intros r. discriminate.
  - reflexivity.
Defined.

(** ** spanner.py: the substitution of the parameters *)

Lemma format_other (c : ascii) (t : string) (args : list string) :
  brace c = false ->
  Py.format (String c t) args =
    try r <- Py.format t args; Ok (String c r).
Proof.
  destruct c as [[|] [|] [|] [|] [|] [|] [|] [|]];
    try reflexivity; intros Hc; discriminate Hc.
Qed.

Lemma format_replace (sql : string) (args : list string) :
  all_chars no_brace sql = true ->
  Py.format (Py.replace "?" "{}" sql) args =
    match fill sql args with
    | Some text => Ok text
    | None => Raise (IndexError "tuple index out of range")
    end.
Proof.
  revert args. induction sql as [|c sql IH]; intros args Hsql; [done|].
  simpl in Hsql. apply andb_prop in Hsql as [Hc Hsql].
  cbn [Py.replace fill]. destruct (Ascii.eqb c "?") eqn:Hq.
  - change ("{}" ++ Py.replace "?" "{}" sql)
      with (String "{" (String "}" (Py.replace "?" "{}" sql))).
    destruct args as [|a args]; [done|].
    cbn [Py.format]. rewrite IH by done.
    by destruct (fill sql args).
  - rewrite format_other by (by apply negb_true_iff in Hc).
    rewrite IH by done. by destruct (fill sql args).
Qed.

(** X15: on a statement without braces the substitution of the
    parameters puts the first parameter in the place of the first [?], and
    so on from left to right, a string parameter between double quotes and
    unescaped, every other parameter as [str] prints it; parameters that
    are left over are ignored, and with fewer parameters than [?] it raises
    [IndexError]. *)
Theorem substitute_fills (sql : string) (parameters : list Py.value) :
  all_chars no_brace sql = true ->
  substitute sql parameters =
    match fill sql (map render parameters) with
    | Some text => Ok text
    | None => Raise (IndexError "tuple index out of range")
    end.
Proof.
  intros Hsql. unfold substitute. rewrite format_replace by done.
  by rewrite List.map_map.
Qed.

Lemma substitute_fills_witness :
  substitute "SELECT path FROM EventLogs WHERE path = ? AND offset > ?"
             [Py.Str "a{b}"; Py.Int (-1); Py.Bool true] =
    Ok ("SELECT path FROM EventLogs WHERE path = "
          ++ Py.dquote ++ "a{b}" ++ Py.dquote ++ " AND offset > -1") /\
  substitute "SELECT path FROM EventLogs WHERE path = ? AND offset > ?"
             [Py.Str "p"] =
    Raise (IndexError "tuple index out of range").
Proof.
  split.
  - apply (substitute_fills
             "SELECT path FROM EventLogs WHERE path = ? AND offset > ?"
             [Py.Str "a{b}"; Py.Int (-1); Py.Bool true]).
    reflexivity.
  - apply (substitute_fills
             "SELECT path FROM EventLogs WHERE path = ? AND offset > ?"
             [Py.Str "p"]).
    reflexivity.
Defined.

(** ** The matcher: greedy repetition *)

Section Star.
Context {R : Type}.
Implicit Types (p : ascii -> bool) (s : string) (k : string -> option R).

(** The repetition fails when what follows fails after every run it can
    take. *)
Lemma star_fails p s k :
  (forall pre s', s = pre ++ s' -> all_chars p pre = true -> k s' = None) ->
  Re.star p s k = None.
Proof.
  induction s as [|c s IH]; intros Hk; simpl.
  - by apply (Hk "" "").
  - destruct (p c) eqn:Hc; [|by apply (Hk "" (String c s))].
    rewrite IH; [by apply (Hk "" (String c s))|].
    intros pre s' -> Hpre. apply (Hk (String c pre) s'); [done|].
    simpl. by rewrite Hc.
Qed.

(** The longest run is tried first. *)
Lemma star_greedy p s k r :
  k (drop_while p s) = Some r -> Re.star p s k = Some r.
Proof.
  induction s as [|c s IH]; simpl; [done|].
  destruct (p c); [|done]. intros Hk. by rewrite IH.
Qed.

(** With one more character of the set at the very end, and what follows
    failing at the end of the text, the repetition gives that character
    back. *)
Lemma star_gives_back p pre c k r :
  all_chars p pre = true -> p c = true ->
  k "" = None -> k (String c "") = Some r ->
  Re.star p (pre ++ String c "") k = Some r.
Proof.
  intros Hpre Hc Hend Hk. induction pre as [|a pre IH]; simpl in *.
  - by rewrite Hc, Hend.
  - apply andb_prop in Hpre as [-> Hpre]. by rewrite IH.
Qed.

End Star.

Lemma lstrip_drop_while (s : string) : Py.lstrip s = drop_while Py.isspace s.
Proof. induction s as [|c s IH]; simpl; [done|]. by rewrite IH. Qed.

Lemma drop_while_length p (s : string) :
  (String.length (drop_while p s) <= String.length s)%nat.
Proof. induction s as [|c s IH]; simpl; [lia|]. destruct (p c); simpl; lia. Qed.

Lemma consumed_drop_while p (s : string) :
  Re.consumed s (drop_while p s) = take_while p s.
Proof.
  unfold Re.consumed. induction s as [|c s IH]; simpl; [done|].
  destruct (p c) eqn:Hc.
  - pose proof (drop_while_length p s) as Hle.
    replace (S (String.length s) - String.length (drop_while p s))%nat
      with (S (String.length s - String.length (drop_while p s))) by lia.
    by rewrite IH.
  - simpl. by rewrite Nat.sub_diag.
Qed.

Lemma drop_while_app p (pre s : string) :
  all_chars p pre = true -> drop_while p (pre ++ s) = drop_while p s.
Proof.
  induction pre as [|c pre IH]; simpl; [done|].
  intros Hpre. apply andb_prop in Hpre as [-> Hpre]. auto.
Qed.

(** ** spanner.py: statements that are neither INSERT nor SELECT *)

Lemma space_not_letter (a c : ascii) :
  Py.isspace a = false -> Py.isspace c = true ->
  Re.ignorecase (Re.is_char a) c = false.
Proof.
  intros Ha Hc. unfold Re.ignorecase, Re.is_char.
  destruct (Ascii.eqb_spec (Re.lower c) a) as [<-|]; [|done].
  exfalso. revert Ha Hc.
  destruct c as [[|] [|] [|] [|] [|] [|] [|] [|]]; vm_compute; congruence.
Qed.

(** A pattern that wants a letter after blanks fails on a text that has
    another character there, or none. *)
Lemma leading_letter_fails {R} (pattern r1 r2 : Re.regex) (a : ascii)
      (text : string) (g : Re.groups) (k : string -> Re.groups -> option R) :
  pattern =
    Re.Cat (Re.Star Re.space)
           (Re.Cat (Re.Cat (Re.Chr (Re.ignorecase (Re.is_char a))) r1) r2) ->
  Py.isspace a = false ->
  match Py.lstrip text with
  | String c _ => Ascii.eqb (Re.lower c) a = false
  | EmptyString => True
  end ->
  Re.run pattern text g k = None.
Proof.
  intros -> Ha Hhead. simpl. apply star_fails.
  intros pre s' -> Hpre.
  rewrite lstrip_drop_while, drop_while_app in Hhead by done.
  destruct s' as [|c s']; [done|].
  simpl in Hhead. destruct (Py.isspace c) eqn:Hc.
  - by rewrite space_not_letter.
  - unfold Re.ignorecase, Re.is_char. by rewrite Hhead.
Qed.

(** X16: a statement that, with its parameters substituted, does not
    start (after blanks) with the letter I or S, in either case, is
    neither an INSERT nor a SELECT for [parse_sql]: it returns [None];
    so does the empty and the blank statement. *)
Theorem parse_sql_no_keyword (sql : string) (parameters : list Py.value)
        (text : string) :
  substitute sql parameters = Ok text ->
  starts_keyword text = false ->
  parse_sql sql parameters = Ok None.
Proof.
  intros Hsub Hstart. unfold parse_sql. rewrite Hsub. simpl.
  unfold starts_keyword in Hstart.
  assert (Re.rmatch INSERT_PATTERN text = None) as ->.
  { eapply (leading_letter_fails INSERT_PATTERN _ _ "i");
      [reflexivity|reflexivity|].
    destruct (Py.lstrip text); [done|].
    by apply orb_false_elim in Hstart as [? _]. }
  assert (Re.rmatch SELECT_PATTERN text = None) as ->.
  { eapply (leading_letter_fails SELECT_PATTERN _ _ "s");
      [reflexivity|reflexivity|].
    destruct (Py.lstrip text); [done|].
    by apply orb_false_elim in Hstart as [_ ?]. }
  done.
Qed.

Lemma parse_sql_no_keyword_witness :
  parse_sql "  DELETE FROM EventLogs WHERE rowid = ?" [Py.Int 297] = Ok None.
Proof.
  apply (parse_sql_no_keyword
           "  DELETE FROM EventLogs WHERE rowid = ?" [Py.Int 297]
           "  DELETE FROM EventLogs WHERE rowid = 297").
  - vm_compute. reflexivity.
  - vm_compute. reflexivity.
Defined.

(** ** spanner.py: the columns of a SELECT *)

Lemma col_name_match (c : string) :
  Re.rmatch _COL_NAME_PATTERN c =
    Some [(1%nat, take_while set_col_name (Py.lstrip c))].
Proof.
  unfold Re.rmatch, _COL_NAME_PATTERN. simpl.
  apply star_greedy, star_greedy, star_greedy, star_greedy.
  by rewrite consumed_drop_while, lstrip_drop_while.
Qed.

Lemma column_names_cut (pieces : list string) :
  column_names pieces =
    Ok (map (fun c => take_while set_col_name (Py.lstrip c)) pieces).
Proof.
  induction pieces as [|c pieces IH]; simpl; [done|].
  rewrite col_name_match, IH. simpl.
  by destruct (Nat.eqb_spec 1 1).
Qed.

(** X17: the loop over the pieces of a select list never raises: every
    piece gives one column, the longest run of letters, digits,
    underscores (and the characters between [Z] and [a]) that follows its
    leading blanks, so that whatever comes after it in the piece, an
    alias or a dot or a parenthesis, is cut off.  [SelectSQL] therefore
    raises only when its pattern does not match the query. *)
Theorem column_names_total (pieces : list string) (sql : string) :
  column_names pieces =
    Ok (map (fun c => take_while set_col_name (Py.lstrip c)) pieces) /\
  SelectSQL_init sql =
    match Re.rmatch _PATTERN sql with
    | Some m =>
        Ok (SelectSQL sql (Re.group m 2)
              (map (fun c => take_while set_col_name (Py.lstrip c))
                   (Py.split "," (Re.group m 1))))
    | None =>
        Raise (ValueError
                 ("Could not parse columns and table name from query: "
                    ++ sql))
    end.
Proof.
  split; [apply column_names_cut|].
  unfold SelectSQL_init. destruct (Re.rmatch _PATTERN sql) as [m|]; [|done].
  by rewrite column_names_cut.
Qed.

(** ** The matcher: stepping through a pattern *)

Lemma take_while_app p (pre s : string) :
  all_chars p pre = true -> stops p s = true ->
  take_while p (pre ++ s) = pre.
Proof.
  intros Hpre Hs. induction pre as [|c pre IH]; simpl in *.
  - destruct s as [|c s]; [done|]. simpl in *.
    by apply negb_true_iff in Hs as ->.
  - apply andb_prop in Hpre as [-> Hpre]. by rewrite IH.
Qed.

Lemma drop_while_stops p (s : string) :
  stops p s = true -> drop_while p s = s.
Proof.
  destruct s as [|c s]; [done|]. simpl. intros Hs.
  by apply negb_true_iff in Hs as ->.
Qed.

Lemma drop_while_run p (pre s : string) :
  all_chars p pre = true -> stops p s = true ->
  drop_while p (pre ++ s) = s.
Proof.
  intros Hpre Hs. rewrite drop_while_app by done. by apply drop_while_stops.
Qed.

Lemma length_app (a b : string) :
  String.length (a ++ b) = (String.length a + String.length b)%nat.
Proof. induction a as [|c a IH]; simpl; [done|]. by rewrite IH. Qed.

Lemma consumed_app (pre s : string) : Re.consumed (pre ++ s) s = pre.
Proof.
  unfold Re.consumed. induction pre as [|c pre IH]; simpl.
  - rewrite Nat.sub_diag. by destruct s.
  - rewrite length_app in *.
    replace (S (String.length pre + String.length s) - String.length s)%nat
      with (S (String.length pre + String.length s - String.length s))
      by lia.
    by rewrite IH.
Qed.

Lemma all_chars_impl (p q : ascii -> bool) (s : string) :
  (forall c, p c = true -> q c = true) ->
  all_chars p s = true -> all_chars q s = true.
Proof.
  intros Hpq. induction s as [|c s IH]; simpl; [done|].
  intros Hs. apply andb_prop in Hs as [Hc Hs]. by rewrite Hpq, IH.
Qed.

Lemma all_chars_app p (a b : string) :
  all_chars p (a ++ b) = (all_chars p a && all_chars p b)%bool.
Proof.
  induction a as [|c a IH]; simpl; [done|]. by rewrite IH, andb_assoc.
Qed.

Section Steps.
Context {R : Type}.
Implicit Types (s : string) (g : Re.groups)
         (k : string -> Re.groups -> option R) (r : R).

Lemma run_star p rest s g k r :
  Re.run rest (drop_while p s) g k = Some r ->
  Re.run (Re.Cat (Re.Star p) rest) s g k = Some r.
Proof. intros Hrest. simpl. by apply star_greedy. Qed.

Lemma run_group_star i p rest s g k r :
  Re.run rest (drop_while p s) ((i, take_while p s) :: g) k = Some r ->
  Re.run (Re.Cat (Re.Grp i (Re.Star p)) rest) s g k = Some r.
Proof.
  intros Hrest. simpl. apply star_greedy. by rewrite consumed_drop_while.
Qed.

Lemma run_chr q rest c s g k :
  q c = true ->
  Re.run (Re.Cat (Re.Chr q) rest) (String c s) g k = Re.run rest s g k.
Proof. intros Hc. simpl. by rewrite Hc. Qed.

Lemma run_literal w pre s g k :
  same_letters w pre = true ->
  Re.run (Re.literal_i w) (pre ++ s) g k = k s g.
Proof.
  revert pre. induction w as [|a w IH]; intros [|c pre]; simpl; try done.
  intros Hw. apply andb_prop in Hw as [Hc Hw].
  unfold Re.ignorecase at 1, Re.is_char at 1. rewrite Hc. by apply IH.
Qed.

(** Blanks, then a word. *)
Lemma run_star_literal p w rest blanks pre s g k r :
  all_chars p blanks = true -> stops p (pre ++ s) = true ->
  same_letters w pre = true ->
  Re.run rest s g k = Some r ->
  Re.run (Re.Cat (Re.Star p) (Re.Cat (Re.literal_i w) rest))
         (blanks ++ pre ++ s) g k = Some r.
Proof.
  intros Hblanks Hstop Hw Hrest. apply run_star.
  rewrite drop_while_run by done.
  change (Re.run (Re.Cat (Re.literal_i w) rest) (pre ++ s) g k)
    with (Re.run (Re.literal_i w) (pre ++ s) g
                 (fun s' g' => Re.run rest s' g' k)).
  by rewrite run_literal.
Qed.

End Steps.

Lemma name_char_not_space (c : ascii) :
  name_char c = true -> Py.isspace c = false.
Proof.
  destruct c as [[|] [|] [|] [|] [|] [|] [|] [|]]; vm_compute; congruence.
Qed.

Lemma name_char_names (c : ascii) :
  name_char c = true -> Re.ignorecase set_names c = true.
Proof.
  unfold name_char, Re.ignorecase, set_name, set_names.
  intros Hc. repeat (apply orb_prop in Hc as [Hc|Hc]); rewrite Hc;
    by rewrite ?orb_true_r.
Qed.

(** The INSERT pattern on the text of an INSERT statement: a table name,
    a text of column names and a text of values between the key words. *)
Lemma insert_text_match (table ctext vtext : string) :
  all_chars name_char table = true ->
  all_chars (Re.ignorecase set_names) ctext = true ->
  all_chars Re.dot vtext = true ->
  Re.rmatch INSERT_PATTERN
            ("INSERT INTO " ++ table ++ " (" ++ ctext ++ ") VALUES ("
               ++ vtext ++ ")") =
    Some [(3%nat, vtext); (2%nat, ctext); (1%nat, table)].
Proof.
  intros Htable Hctext Hvtext.
  unfold Re.rmatch, INSERT_PATTERN. cbn [Re.seq].
  change ("INSERT INTO " ++ table ++ " (" ++ ctext ++ ") VALUES ("
            ++ vtext ++ ")")
    with ("" ++ "INSERT" ++ " " ++ "INTO" ++ " " ++ table ++ " (" ++ ctext
            ++ ")" ++ " " ++ "VALUES" ++ " (" ++ vtext ++ ")").
  apply run_star_literal; [done..|].
  apply run_star_literal; [done..|].
  apply run_star, run_group_star.
  set (rest := ctext ++ ")" ++ " " ++ "VALUES" ++ " (" ++ vtext ++ ")").
  assert (take_while (Re.ignorecase set_name)
            (drop_while Re.space (" " ++ table ++ " (" ++ rest)) = table /\
          drop_while Re.space
            (drop_while (Re.ignorecase set_name)
               (drop_while Re.space (" " ++ table ++ " (" ++ rest))) =
            String "(" rest) as [-> Hafter].
  { change (all_chars (Re.ignorecase set_name) table = true) in Htable.
    destruct table as [|c table]; [done|].
    simpl in Htable. apply andb_prop in Htable as [Hc Htable].
    change (drop_while Re.space (" " ++ String c table ++ " (" ++ rest))
      with (drop_while Re.space (String c (table ++ " (" ++ rest))).
    rewrite (drop_while_stops Re.space)
      by (unfold stops, Re.space; by rewrite (name_char_not_space c Hc)).
    change (String c (table ++ " (" ++ rest))
      with (String c table ++ " (" ++ rest).
    assert (all_chars (Re.ignorecase set_name) (String c table) = true)
      as Hname by (simpl; by rewrite Hc, Htable).
    by rewrite take_while_app, drop_while_run. }
  apply run_star. rewrite Hafter.
  rewrite run_chr by done.
  apply run_group_star. unfold rest.
  rewrite take_while_app, drop_while_run by done.
  change (")" ++ " " ++ "VALUES" ++ " (" ++ vtext ++ ")")
    with (String ")" (" " ++ "VALUES" ++ " (" ++ vtext ++ ")")).
  rewrite run_chr by done.
  apply run_star_literal; [done..|].
  apply run_star.
  change (drop_while Re.space (" (" ++ vtext ++ ")"))
    with (String "(" (vtext ++ ")")).
  rewrite run_chr by done.
  simpl. apply star_gives_back; [done..|].
  simpl. by rewrite consumed_app.
Qed.

(** ** Splitting, joining and stripping *)

Lemma append_assoc (a b c : string) : (a ++ b) ++ c = a ++ b ++ c.
Proof. induction a as [|x a IH]; simpl; [done|]. by rewrite IH. Qed.

Lemma split_whole (w : string) :
  all_chars value_char w = true -> Py.split "," w = [w].
Proof.
  induction w as [|c w IH]; simpl; [done|].
  intros Hw. apply andb_prop in Hw as [Hc Hw].
  unfold value_char in Hc. apply andb_prop in Hc as [Hc _].
  apply negb_true_iff in Hc. rewrite Hc. by rewrite IH.
Qed.

Lemma split_comma (w s : string) :
  all_chars value_char w = true ->
  Py.split "," (w ++ String "," s) = w :: Py.split "," s.
Proof.
  induction w as [|c w IH]; simpl; [done|].
  intros Hw. apply andb_prop in Hw as [Hc Hw].
  unfold value_char in Hc. apply andb_prop in Hc as [Hc _].
  apply negb_true_iff in Hc. rewrite Hc. by rewrite IH.
Qed.

Lemma join_blank (w : string) (ws : list string) :
  String " " (Py.join ", " (w :: ws)) = Py.join ", " (String " " w :: ws).
Proof. by destruct ws. Qed.

(** Splitting a joined list at its commas gives the list back, each
    element but the first behind the blank that followed the comma. *)
Lemma split_join (w : string) (ws : list string) :
  all_chars value_char w = true ->
  Forall (fun x => all_chars value_char x = true) ws ->
  Py.split "," (Py.join ", " (w :: ws)) = w :: map (String " ") ws.
Proof.
  intros Hw Hws. revert w Hw.
  induction Hws as [|w2 ws Hw2 _ IH]; intros w Hw.
  - by apply split_whole.
  - change (Py.join ", " (w :: w2 :: ws))
      with (w ++ String "," (String " " (Py.join ", " (w2 :: ws)))).
    rewrite split_comma, join_blank, IH by done. done.
Qed.

Lemma rstrip_end (s : string) (c : ascii) :
  Py.isspace c = false -> Py.rstrip (s ++ String c "") = s ++ String c "".
Proof.
  intros Hc. induction s as [|a s IH]; simpl.
  - by rewrite Hc.
  - rewrite IH. by destruct s.
Qed.

Lemma rstrip_no_space (s : string) :
  all_chars (fun c => negb (Py.isspace c)) s = true -> Py.rstrip s = s.
Proof.
  induction s as [|c s IH]; simpl; [done|].
  intros Hs. apply andb_prop in Hs as [Hc Hs].
  apply negb_true_iff in Hc. rewrite IH, Hc by done. by destruct s.
Qed.

Lemma strip_no_space (s : string) :
  all_chars (fun c => negb (Py.isspace c)) s = true -> Py.strip s = s.
Proof.
  intros Hs. unfold Py.strip.
  rewrite lstrip_drop_while, drop_while_stops; [by apply rstrip_no_space|].
  destruct s as [|c s]; [done|]. simpl in *.
  by apply andb_prop in Hs as [-> _].
Qed.

Lemma strip_blank_first (ws : list string) :
  Forall (fun x => Py.strip x = x) ws ->
  map Py.strip (map (String " ") ws) = ws.
Proof.
  induction 1 as [|w ws Hw _ IH]; simpl; [done|].
  change (Py.strip (String " " w)) with (Py.strip w). by rewrite Hw, IH.
Qed.

Lemma all_chars_join p (sep : string) (l : list string) :
  all_chars p sep = true ->
  Forall (fun x => all_chars p x = true) l ->
  all_chars p (Py.join sep l) = true.
Proof.
  intros Hsep. induction 1 as [|w ws Hw Hws IH]; [done|].
  destruct ws as [|w2 ws]; [done|].
  change (Py.join sep (w :: w2 :: ws))
    with (w ++ sep ++ Py.join sep (w2 :: ws)).
  by rewrite !all_chars_app, Hw, Hsep, IH.
Qed.

Lemma all_chars_uint p (d : Decimal.uint) :
  all_chars p "0123456789" = true ->
  all_chars p (NilEmpty.string_of_uint d) = true.
Proof.
  simpl. intros Hp. repeat (apply andb_prop in Hp as [? Hp]).
  induction d; simpl; rewrite ?IHd; by rewrite ?andb_true_r.
Qed.

Lemma all_chars_str_of_int p (z : Z) :
  all_chars p "-0123456789" = true ->
  all_chars p (Py.str_of_int z) = true.
Proof.
  intros Hp. pose proof Hp as Hminus. simpl in Hminus.
  apply andb_prop in Hminus as [Hminus Hdigits].
  assert (all_chars p "0" = true) as Hzero.
  { simpl. apply andb_prop in Hdigits as [-> _]. done. }
  pose proof (all_chars_uint p) as Huint. simpl in Huint.
  unfold Py.str_of_int, NilZero.string_of_int, NilZero.string_of_uint.
  destruct (Z.to_int z) as [d|d]; destruct d; simpl;
    rewrite ?Hminus; try done;
    try (by apply (Huint (Decimal.D0 _)));
    try (by apply (Huint (Decimal.D1 _)));
    try (by apply (Huint (Decimal.D2 _)));
    try (by apply (Huint (Decimal.D3 _)));
    try (by apply (Huint (Decimal.D4 _)));
    try (by apply (Huint (Decimal.D5 _)));
    try (by apply (Huint (Decimal.D6 _)));
    try (by apply (Huint (Decimal.D7 _)));
    try (by apply (Huint (Decimal.D8 _)));
    try (by apply (Huint (Decimal.D9 _))).
Qed.

(** The text of a plain parameter holds no comma and no newline, and
    stripping leaves it as it is. *)
Lemma render_plain (p : Py.value) :
  plain p = true ->
  all_chars value_char (render p) = true /\ Py.strip (render p) = render p.
Proof.
  destruct p as [z|s|[|]|]; simpl; intros Hp; try done.
  - unfold render. simpl. split.
    + by apply all_chars_str_of_int.
    + apply strip_no_space. by apply all_chars_str_of_int.
  - unfold render. simpl. split.
    + change (String "034" (s ++ Py.dquote))
        with (Py.dquote ++ s ++ Py.dquote).
      by rewrite !all_chars_app, Hp.
    + unfold Py.strip. change (Py.lstrip (String "034" (s ++ Py.dquote)))
        with (String "034" (s ++ Py.dquote)).
      change (String "034" (s ++ Py.dquote))
        with (String "034" s ++ String "034" "").
      by apply rstrip_end.
Qed.

(** ** spanner.py: the INSERT statements of the callers *)

Lemma fill_whole (s : string) (args : list string) :
  all_chars (fun c => negb (Ascii.eqb c "?")) s = true ->
  fill s args = Some s.
Proof.
  induction s as [|c s IH]; simpl; [done|].
  intros Hs. apply andb_prop in Hs as [Hc Hs].
  apply negb_true_iff in Hc. by rewrite Hc, IH.
Qed.

Lemma fill_app (a b : string) (args : list string) :
  all_chars (fun c => negb (Ascii.eqb c "?")) a = true ->
  fill (a ++ b) args = option_map (append a) (fill b args).
Proof.
  induction a as [|c a IH]; simpl.
  - by destruct (fill b args).
  - intros Ha. apply andb_prop in Ha as [Hc Ha].
    apply negb_true_iff in Hc. rewrite Hc, IH by done.
    by destruct (fill b args).
Qed.

Lemma fill_placeholders (args : list string) (rest : string) :
  all_chars (fun c => negb (Ascii.eqb c "?")) rest = true ->
  fill (Py.join ", " (replicate (length args) "?") ++ rest) args =
    Some (Py.join ", " args ++ rest).
Proof.
  intros Hrest. induction args as [|a args IH]; [by apply fill_whole|].
  destruct args as [|a2 args].
  - simpl. by rewrite fill_whole.
  - change (Py.join ", " (replicate (length (a :: a2 :: args)) "?") ++ rest)
      with (String "?"
              (", " ++ Py.join ", " (replicate (length (a2 :: args)) "?")
                 ++ rest)).
    cbn [fill]. change (Ascii.eqb "?" "?") with true. cbn iota.
    rewrite fill_app, IH by done. simpl.
    change (Py.join ", " (a :: a2 :: args))
      with (a ++ ", " ++ Py.join ", " (a2 :: args)).
    by rewrite !append_assoc.
Qed.

Lemma name_char_facts (c : ascii) :
  name_char c = true ->
  value_char c = true /\ no_brace c = true /\
  negb (Ascii.eqb c "?") = true /\ negb (Py.isspace c) = true.
Proof.
  destruct c as [[|] [|] [|] [|] [|] [|] [|] [|]]; vm_compute;
    intros Hc; try discriminate Hc; done.
Qed.

Lemma name_facts (x : string) :
  all_chars name_char x = true ->
  all_chars value_char x = true /\ all_chars no_brace x = true /\
  all_chars (fun c => negb (Ascii.eqb c "?")) x = true /\
  all_chars (fun c => negb (Py.isspace c)) x = true /\
  all_chars (Re.ignorecase set_names) x = true.
Proof.
  intros Hx. repeat split;
    (eapply all_chars_impl; [|exact Hx]); intros c Hc;
    try (by apply name_char_facts); by apply name_char_names.
Qed.

Lemma value_char_dot (x : string) :
  all_chars value_char x = true -> all_chars Re.dot x = true.
Proof.
  apply all_chars_impl. intros c Hc. unfold value_char in Hc.
  by apply andb_prop in Hc as [_ ?].
Qed.

(** The substitution on the INSERT statement of a table, its columns and
    its parameters. *)
Lemma substitute_insert_statement table cols (ps : list Py.value) :
  all_chars name_char table = true ->
  Forall (fun c => all_chars name_char c = true) cols ->
  substitute (insert_statement table cols (length ps)) ps =
    Ok ("INSERT INTO " ++ table ++ " (" ++ Py.join ", " cols
          ++ ") VALUES (" ++ Py.join ", " (map render ps) ++ ")").
Proof.
  intros Htable Hcols.
  destruct (name_facts table Htable) as (_ & Htb & Htq & _ & _).
  assert (all_chars no_brace (Py.join ", " cols) = true /\
          all_chars (fun c => negb (Ascii.eqb c "?")) (Py.join ", " cols)
            = true) as [Hcb Hcq].
  { split; (apply all_chars_join; [done|]);
      (eapply Forall_impl; [exact Hcols|]); intros c Hc;
      by destruct (name_facts c Hc) as (_ & ? & ? & _). }
  assert (all_chars no_brace (Py.join ", " (replicate (length ps) "?"))
            = true) as Hqb.
  { apply all_chars_join; [done|]. apply Forall_replicate. done. }
  unfold substitute. rewrite List.map_map. rewrite format_replace.
  - unfold insert_statement.
    rewrite (fill_app "INSERT INTO ") by done.
    rewrite (fill_app table) by done.
    rewrite (fill_app " (") by done.
    rewrite (fill_app (Py.join ", " cols)) by done.
    rewrite (fill_app ") VALUES (") by done.
    replace (length ps) with (length (map render ps))
      by apply List.length_map.
    by rewrite fill_placeholders.
  - unfold insert_statement.
    by rewrite !all_chars_app, Htb, Hcb, Hqb.
Qed.

Lemma parse_insert_statement (table : string) (cols : list string)
        (ps : list Py.value) :
  all_chars name_char table = true ->
  cols <> [] -> Forall (fun c => all_chars name_char c = true) cols ->
  ps <> [] -> Forall (fun p => plain p = true) ps ->
  parse_sql (insert_statement table cols (length ps)) ps =
    Ok (Some (InsertSQL table cols (map render ps))).
Proof.
  intros Htable Hcols0 Hcols Hps0 Hps.
  unfold parse_sql. rewrite substitute_insert_statement by done.
  cbn [result_bind].
  assert (Forall (fun x => all_chars value_char x = true) cols /\
          Forall (fun x => Py.strip x = x) cols /\
          Forall (fun x => all_chars (Re.ignorecase set_names) x = true) cols)
    as (Hcv & Hcs & Hcn).
  { repeat split; (eapply Forall_impl; [exact Hcols|]); intros c Hc;
      destruct (name_facts c Hc) as (? & _ & _ & ? & ?);
      try done. by apply strip_no_space. }
  assert (Forall (fun x => all_chars value_char x = true) (map render ps) /\
          Forall (fun x => Py.strip x = x) (map render ps)) as (Hpv & Hpst).
  { split; apply Forall_fmap; (eapply Forall_impl; [exact Hps|]);
      intros p Hp; by destruct (render_plain p Hp). }
  rewrite insert_text_match.
  - simpl. do 3 f_equal.
    + destruct cols as [|c cols]; [done|].
      apply Forall_cons in Hcv as [Hc Hcv]. apply Forall_cons in Hcs as [Hc' Hcs].
      rewrite split_join by done. simpl.
      by rewrite Hc', strip_blank_first.
    + destruct (map render ps) as [|v vs] eqn:Hvs;
        [by destruct ps|].
      apply Forall_cons in Hpv as [Hv Hpv].
      apply Forall_cons in Hpst as [Hv' Hpst].
      rewrite split_join by done. simpl.
      by rewrite Hv', strip_blank_first.
  - done.
  - by apply all_chars_join.
  - apply all_chars_join; [done|].
    eapply Forall_impl; [exact Hpv|]. apply value_char_dot.
Qed.

(** X18: the INSERT statement of a table, columns and parameters, written
    as [INSERT INTO table (c1, c2, ...) VALUES (?, ?, ...)] with names
    made of letters, digits and underscores and with string parameters
    that hold no comma and no newline, is parsed back into the table, the
    columns in their order, and the parameters as they are written: a
    string between double quotes, any other as [str] prints it. *)
Theorem parse_sql_insert_statement (table : string) (cols : list string)
        (ps : list Py.value) :
  all_chars name_char table = true ->
  cols <> [] -> Forall (fun c => all_chars name_char c = true) cols ->
  ps <> [] -> Forall (fun p => plain p = true) ps ->
  parse_sql (insert_statement table cols (length ps)) ps =
    Ok (Some (InsertSQL table cols (map render ps))).
Proof. apply parse_insert_statement. Qed.

Lemma parse_sql_insert_statement_witness :
  parse_sql "INSERT INTO Tags (rowid, tag_id, name) VALUES (?, ?, ?)"
            [Py.Int 7; Py.Int (-2); Py.Str "loss (train) {x}?"] =
    Ok (Some (InsertSQL "Tags" ["rowid"; "tag_id"; "name"]
                ["7"; "-2";
                 Py.dquote ++ "loss (train) {x}?" ++ Py.dquote])).
Proof.
  apply (parse_sql_insert_statement
           "Tags" ["rowid"; "tag_id"; "name"]
           [Py.Int 7; Py.Int (-2); Py.Str "loss (train) {x}?"]).
  - reflexivity.
  - discriminate.
  - repeat constructor.
  - discriminate.
  - repeat constructor.
Defined.

(** X19: execute of such an INSERT statement calls the service once, with
    the batch insert of one row for the table and the columns of the
    statement; the values of the row are the texts of the parameters, a
    string parameter with its double quotes.  It returns when the call
    returns and raises what the call raises. *)
Theorem execute_insert_statement `{Backend} (self : CloudSpannerCursor)
        (w : world) (table : string) (cols : list string)
        (ps : list Py.value) :
  all_chars name_char table = true ->
  cols <> [] -> Forall (fun c => all_chars name_char c = true) cols ->
  ps <> [] -> Forall (fun p => plain p = true) ps ->
  let out := call w (BatchInsert table cols [map render ps]) in
  execute self w (insert_statement table cols (length ps)) ps =
    (match out.1 with Ok _ => Ok tt | Raise e => Raise e end,
     set_database self, out.2).
Proof.
  intros Htable Hcols0 Hcols Hps0 Hps out. unfold execute.
  rewrite parse_insert_statement by done.
  subst out. by destruct (call w _) as [[rows|e] w1].
Qed.

Lemma execute_insert_statement_witness :
  let w := memory_world [] in
  let self := new_cursor "tb" "jlewi-tb" in
  let out :=
    execute self w "INSERT INTO Plugins (plugin_id, name) VALUES (?, ?)"
            [Py.Int 1; Py.Str "scalars"] in
  out.1.1 = Ok tt /\
  calls out.2 =
    [BatchInsert "Plugins" ["plugin_id"; "name"]
                 [["1"; (Py.dquote ++ "scalars" ++ Py.dquote)%string]]].
Proof.
  intros w self out.
  pose proof (execute_insert_statement
                (H := memory_backend) self w "Plugins" ["plugin_id"; "name"]
                [Py.Int 1; Py.Str "scalars"]) as Hout.
  simpl in Hout. unfold out.
  change "INSERT INTO Plugins (plugin_id, name) VALUES (?, ?)"
    with (insert_statement "Plugins" ["plugin_id"; "name"] 2).
  rewrite Hout.
  - split; reflexivity.
  - reflexivity.
  - discriminate.
  - repeat constructor.
  - discriminate.
  - repeat constructor.
Defined.

(** ** spanner.py: the SELECT statements of the callers *)

Lemma run_literal_fails {R} (w s : string) (g : Re.groups)
      (k : string -> Re.groups -> option R) :
  starts_ci w s = false -> Re.run (Re.literal_i w) s g k = None.
Proof.
  revert s. induction w as [|a w IH]; intros [|c s]; simpl; try done.
  intros Hw. unfold Re.ignorecase at 1, Re.is_char at 1.
  destruct (Ascii.eqb (Re.lower c) (Re.lower a)); [|done]. by apply IH.
Qed.

Lemma free_of_suffix (w a b : string) :
  free_of w (a ++ b) = true -> starts_ci w b = false.
Proof.
  induction a as [|c a IH]; simpl.
  - destruct b; simpl; intros Hb; apply andb_prop in Hb as [Hb _];
      by apply negb_true_iff in Hb.
  - intros Hab. apply andb_prop in Hab as [_ Hab]. by apply IH.
Qed.

Section Back.
Context {R : Type}.
Implicit Types (s : string) (g : Re.groups)
         (k : string -> Re.groups -> option R) (r : R).

(** The repetition stops where what follows succeeds, when it fails after
    every longer run. *)
Lemma star_first p s (k : string -> option R) :
  (forall pre s', s = pre ++ s' -> pre <> "" ->
                  all_chars p pre = true -> k s' = None) ->
  Re.star p s k = k s.
Proof.
  intros Hk. destruct s as [|c s]; simpl; [done|].
  destruct (p c) eqn:Hc; [|done].
  rewrite star_fails; [done|].
  intros pre s' -> Hpre. apply (Hk (String c pre) s'); [done..|].
  simpl. by rewrite Hc.
Qed.

Lemma star_back p pre s (k : string -> option R) r :
  all_chars p pre = true -> k s = Some r ->
  (forall pre' s', s = pre' ++ s' -> pre' <> "" ->
                   all_chars p pre' = true -> k s' = None) ->
  Re.star p (pre ++ s) k = Some r.
Proof.
  intros Hpre Hk Hlater. induction pre as [|c pre IH]; simpl in *.
  - by rewrite star_first.
  - apply andb_prop in Hpre as [-> Hpre]. by rewrite IH.
Qed.

Lemma run_group_star_back i p rest pre s g k r :
  all_chars p pre = true ->
  Re.run rest s ((i, pre) :: g) k = Some r ->
  (forall pre' s' g', s = pre' ++ s' -> pre' <> "" ->
                      all_chars p pre' = true ->
                      Re.run rest s' g' k = None) ->
  Re.run (Re.Cat (Re.Grp i (Re.Star p)) rest) (pre ++ s) g k = Some r.
Proof.
  intros Hpre Hrest Hlater. simpl. apply star_back; [done| |].
  - by rewrite consumed_app.
  - intros pre' s' Hs Hne Hp. by eapply Hlater.
Qed.

End Back.

Lemma name_char_tables (c : ascii) :
  name_char c = true -> Re.ignorecase set_tables c = true.
Proof.
  unfold name_char, Re.ignorecase, set_name, set_tables.
  intros Hc. repeat (apply orb_prop in Hc as [Hc|Hc]); rewrite Hc;
    by rewrite ?orb_true_r.
Qed.

Lemma name_char_col_name (c : ascii) :
  name_char c = true -> set_col_name c = true.
Proof.
  destruct c as [[|] [|] [|] [|] [|] [|] [|] [|]]; vm_compute;
    intros Hc; try discriminate Hc; done.
Qed.

Lemma space_not_col_name (c : ascii) :
  Py.isspace c = true -> set_col_name c = false.
Proof.
  destruct c as [[|] [|] [|] [|] [|] [|] [|] [|]]; vm_compute;
    intros Hc; try discriminate Hc; done.
Qed.

(** The select pattern on the text of a SELECT: the text of the columns
    and the blank after it, and the table. *)
Lemma select_text_match (ctext table rest : string) :
  ctext <> "" -> stops Re.space ctext = true ->
  all_chars (Re.ignorecase set_names) ctext = true ->
  table <> "" -> all_chars name_char table = true ->
  stops (Re.ignorecase set_tables) rest = true ->
  free_of "from" (table ++ rest) = true ->
  Re.rmatch _PATTERN ("SELECT " ++ ctext ++ " FROM " ++ table ++ rest) =
    Some [(2%nat, table); (1%nat, ctext ++ " ")].
Proof.
  intros Hctext0 Hhead Hctext Htable0 Htable Hrest Hfree.
  unfold Re.rmatch, _PATTERN. cbn [Re.seq].
  change ("SELECT " ++ ctext ++ " FROM " ++ table ++ rest)
    with ("" ++ "SELECT" ++ " " ++ ctext ++ " FROM " ++ table ++ rest).
  apply run_star_literal; [done..|].
  apply run_star. rewrite (drop_while_app Re.space " ") by done.
  rewrite drop_while_stops
    by (destruct ctext; [done|exact Hhead]).
  change (ctext ++ " FROM " ++ table ++ rest)
    with (ctext ++ " " ++ "FROM" ++ " " ++ table ++ rest).
  rewrite <- append_assoc.
  apply run_group_star_back.
  - by rewrite all_chars_app, Hctext.
  - change (Re.run (Re.Cat (Re.literal_i "from") ?rest) ?s ?g ?k)
      with (Re.run (Re.literal_i "from") s g
                   (fun s' g' => Re.run rest s' g' k)).
    rewrite run_literal by done.
    apply run_star. rewrite (drop_while_app Re.space " ") by done.
    rewrite drop_while_stops.
    2:{ destruct table as [|c table]; [done|]. simpl in *.
        apply andb_prop in Htable as [Hc _]. unfold Re.space.
        by rewrite (name_char_not_space c Hc). }
    simpl. apply star_greedy.
    assert (all_chars (Re.ignorecase set_tables) table = true) as Htables.
    { eapply all_chars_impl; [|exact Htable]. apply name_char_tables. }
    rewrite drop_while_run by done.
    apply star_greedy. by rewrite consumed_app.
  - intros pre' s' g' Hs Hne Hpre'.
    change (Re.run (Re.Cat (Re.literal_i "from") ?rest) ?s ?g ?k)
      with (Re.run (Re.literal_i "from") s g
                   (fun s' g' => Re.run rest s' g' k)).
    apply run_literal_fails.
    destruct pre' as [|c pre']; [done|].
    injection Hs as _ Hs.
    apply (free_of_suffix "from" pre' s'). rewrite <- Hs.
    simpl. exact Hfree.
Qed.

(** A name between blanks is cut out of its piece of the select list. *)
Lemma cut_padded (b w b2 : string) :
  all_chars Py.isspace b = true ->
  w <> "" -> all_chars name_char w = true ->
  all_chars Py.isspace b2 = true ->
  take_while set_col_name (Py.lstrip (b ++ w ++ b2)) = w.
Proof.
  intros Hb Hw0 Hw Hb2.
  rewrite lstrip_drop_while, drop_while_app by done.
  rewrite drop_while_stops.
  - apply take_while_app.
    + eapply all_chars_impl; [|exact Hw]. apply name_char_col_name.
    + destruct b2 as [|c b2]; [done|]. simpl in *.
      apply andb_prop in Hb2 as [Hc _]. by rewrite space_not_col_name.
  - destruct w as [|c w]; [done|]. simpl in *.
    apply andb_prop in Hw as [Hc _]. by rewrite (name_char_not_space c Hc).
Qed.

Lemma cut_pieces (b w : string) (ws : list string) :
  b = "" \/ b = " " ->
  Forall (fun c => c <> "" /\ all_chars name_char c = true) (w :: ws) ->
  map (fun c => take_while set_col_name (Py.lstrip c))
      (Py.split "," (b ++ Py.join ", " (w :: ws) ++ " ")) = w :: ws.
Proof.
  intros Hb Hall. revert b w Hb Hall.
  induction ws as [|w2 ws IH]; intros b w Hb Hall;
    apply Forall_cons in Hall as [[Hw0 Hw] Hws];
    destruct (name_facts w Hw) as (Hwv & _);
    assert (all_chars value_char b = true /\ all_chars Py.isspace b = true)
      as [Hbv Hbs] by (by destruct Hb as [-> | ->]).
  - change (Py.join ", " [w]) with w.
    rewrite split_whole by (by rewrite !all_chars_app, Hbv, Hwv).
    simpl. by rewrite cut_padded.
  - change (Py.join ", " (w :: w2 :: ws))
      with (w ++ String "," (" " ++ Py.join ", " (w2 :: ws))).
    rewrite (append_assoc w), <- (append_assoc b).
    change (String "," (" " ++ Py.join ", " (w2 :: ws)) ++ " ")
      with (String "," (" " ++ Py.join ", " (w2 :: ws) ++ " ")).
    rewrite split_comma by (by rewrite all_chars_app, Hbv, Hwv).
    cbn [map]. rewrite IH by auto.
    f_equal. pose proof (cut_padded b w "" Hbs Hw0 Hw eq_refl) as Hcut.
    replace (w ++ "") with w in Hcut; [done|].
    clear. induction w as [|c w IHw]; simpl; [done|]. by rewrite <- IHw.
Qed.

Lemma select_keyword_match (text : string) :
  Re.rmatch SELECT_PATTERN ("SELECT " ++ text) <> None.
Proof.
  cut (exists m, Re.rmatch SELECT_PATTERN ("SELECT " ++ text) = Some m);
    [by intros [m ->]|].
  unfold Re.rmatch, SELECT_PATTERN. cbn [Re.seq].
  change ("SELECT " ++ text) with ("" ++ "SELECT" ++ " " ++ text).
  eexists. apply run_star_literal; [done..|].
  cbn [Re.run]. apply star_greedy. reflexivity.
Qed.

(** X20: a statement that, with its parameters substituted, reads
    [SELECT c1, c2, ... FROM table] and then whatever, with names made of
    letters, digits and underscores, is parsed into that table, those
    columns in their order and the whole text as the raw query, provided
    that what follows the table name does not go on with a letter, a
    digit, an underscore or a comma, and that the word [from] does not
    start anywhere in the table name or after it. *)
Theorem parse_sql_select_text (sql : string) (ps : list Py.value)
        (cols : list string) (table rest : string) :
  substitute sql ps = Ok (select_text cols table rest) ->
  cols <> [] ->
  Forall (fun c => c <> "" /\ all_chars name_char c = true) cols ->
  table <> "" -> all_chars name_char table = true ->
  stops (Re.ignorecase set_tables) rest = true ->
  free_of "from" (table ++ rest) = true ->
  parse_sql sql ps =
    Ok (Some (SelectSQL (select_text cols table rest) table cols)).
Proof.
  intros Hsub Hcols0 Hcols Htable0 Htable Hrest Hfree.
  destruct cols as [|c cols]; [done|]. clear Hcols0.
  unfold parse_sql. rewrite Hsub. cbn [result_bind].
  assert (Re.rmatch INSERT_PATTERN (select_text (c :: cols) table rest)
          = None) as ->.
  { eapply (leading_letter_fails INSERT_PATTERN _ _ "i");
      [reflexivity|reflexivity|done]. }
  pose proof (select_keyword_match
                (Py.join ", " (c :: cols) ++ " FROM " ++ table ++ rest))
    as Hselect.
  change ("SELECT " ++ Py.join ", " (c :: cols) ++ " FROM " ++ table ++ rest)
    with (select_text (c :: cols) table rest) in Hselect.
  destruct (Re.rmatch SELECT_PATTERN _) as [m|]; [clear Hselect|done].
  unfold SelectSQL_init. unfold select_text at 1.
  pose proof Hcols as Hnames. apply Forall_cons in Hnames as [[Hc0 Hc] _].
  assert (all_chars (Re.ignorecase set_names) (Py.join ", " (c :: cols))
          = true) as Hctext.
  { apply all_chars_join; [done|].
    eapply Forall_impl; [exact Hcols|]. intros x [_ Hx].
    by destruct (name_facts x Hx) as (_ & _ & _ & _ & ?). }
  assert (Py.join ", " (c :: cols) <> "" /\
          stops Re.space (Py.join ", " (c :: cols)) = true) as [Hne Hhead].
  { destruct c as [|a c]; [done|]. simpl in Hc.
    apply andb_prop in Hc as [Ha _]. apply name_char_not_space in Ha.
    destruct cols; simpl; unfold Re.space; by rewrite Ha. }
  rewrite select_text_match by done.
  rewrite column_names_cut. cbn [result_bind Re.group Nat.eqb].
  do 3 f_equal.
  apply (cut_pieces "" c cols); [by left|done].
Qed.

Lemma parse_sql_select_text_witness :
  parse_sql "SELECT rowid, offset FROM EventLogs WHERE path = ? AND run_id = ?"
            [Py.Str "events.out"; Py.Int 4] =
    Ok (Some (SelectSQL
                (select_text ["rowid"; "offset"] "EventLogs"
                   (" WHERE path = " ++ Py.dquote ++ "events.out" ++ Py.dquote
                      ++ " AND run_id = 4"))
                "EventLogs" ["rowid"; "offset"])).
Proof.
  apply (parse_sql_select_text
           "SELECT rowid, offset FROM EventLogs WHERE path = ? AND run_id = ?"
           [Py.Str "events.out"; Py.Int 4]).
  - vm_compute. reflexivity.
  - discriminate.
  - repeat constructor; discriminate.
  - discriminate.
  - reflexivity.
  - reflexivity.
  - vm_compute. reflexivity.
Defined.

(** The word [from] in what follows the table takes the place of the
    FROM of the statement: the precondition on it is a real one. *)
Example parse_sql_second_from :
  parse_sql "SELECT rowid FROM Runs WHERE name IN (SELECT name FROM Tags)" [] =
    Ok (Some (SelectSQL
                "SELECT rowid FROM Runs WHERE name IN (SELECT name FROM Tags)"
                "Runs" ["rowid"])) /\
  parse_sql "SELECT rowid FROM Runs WHERE from_run = 1" [] =
    Ok (Some (SelectSQL "SELECT rowid FROM Runs WHERE from_run = 1"
                "_run" ["rowid"])).
Proof. split; vm_compute; reflexivity. Qed.

(** ** spanner.py: the backend type tells the column type *)

Lemma append_cancel_r (x y s : string) : x ++ s = y ++ s -> x = y.
Proof.
  revert y. induction x as [|a x IH]; intros [|b y] Heq; simpl in Heq.
  - done.
  - apply (f_equal String.length) in Heq. simpl in Heq.
    rewrite length_app in Heq. lia.
  - apply (f_equal String.length) in Heq. simpl in Heq.
    rewrite length_app in Heq. lia.
  - injection Heq as -> Heq. by rewrite (IH y Heq).
Qed.

Lemma str_of_int_inj (a b : Z) : Py.str_of_int a = Py.str_of_int b -> a = b.
Proof.
  intros Heq. apply DecimalZ.to_int_inj.
  assert (forall z, Z.to_int z <> Decimal.Pos Decimal.Nil /\
                    Z.to_int z <> Decimal.Neg Decimal.Nil) as Hnil.
  { intros [|p|p]; simpl; split; try discriminate;
      intros [= Hp]; by apply DecimalPos.Unsigned.to_uint_nonnil in Hp. }
  destruct (Hnil a) as [Ha1 Ha2]. destruct (Hnil b) as [Hb1 Hb2].
  pose proof (NilZero.isi _ Ha1 Ha2) as Hia.
  pose proof (NilZero.isi _ Hb1 Hb2) as Hib.
  unfold Py.str_of_int in Heq. rewrite Heq in Hia. congruence.
Qed.

Lemma str_of_int_not_max (n : Z) (s : string) :
  Py.str_of_int n ++ s <> String "M" ("AX" ++ s).
Proof.
  pose proof (all_chars_str_of_int
                (fun c => negb (Ascii.eqb c "M")) n eq_refl) as Hn.
  destruct (Py.str_of_int n) as [|c r] eqn:Hstr; simpl.
  - intros Heq. apply (f_equal String.length) in Heq. simpl in Heq. lia.
  - simpl in Hn. apply andb_prop in Hn as [Hc _].
    intros [= -> _]. done.
Qed.

(** X21: two column types that are given the same backend type are the
    same column type, a bound of zero counting as no bound: the DDL
    never confuses two declared types or two bounds. *)
Theorem to_spanner_type_inj (ty1 ty2 : ColumnType) (s : string) :
  to_spanner_type ty1 = Ok s -> to_spanner_type ty2 = Ok s ->
  as_read ty1 = as_read ty2.
Proof.
  destruct ty1 as [|l1| |l1|r1], ty2 as [|l2| |l2|r2]; simpl;
    try destruct (length_given l1) as [n1|];
    try destruct (length_given l2) as [n2|];
    intros H1 H2; try discriminate H2; rewrite <- H2 in H1; clear H2;
    simpl in H1;
    try discriminate H1; try reflexivity; injection H1 as Heq.
  - apply append_cancel_r, str_of_int_inj in Heq. by subst.
  - by apply str_of_int_not_max in Heq.
  - symmetry in Heq. by apply str_of_int_not_max in Heq.
  - apply append_cancel_r, str_of_int_inj in Heq. by subst.
  - by apply str_of_int_not_max in Heq.
  - symmetry in Heq. by apply str_of_int_not_max in Heq.
Qed.

Lemma to_spanner_type_inj_witness :
  as_read (StringColumnType (Some 0)) = as_read (StringColumnType None).
Proof.
  apply (to_spanner_type_inj
           (StringColumnType (Some 0)) (StringColumnType None) "STRING(MAX)");
    reflexivity.
Defined.

(** A comma in a string parameter cuts its value in two: the
    precondition of X18 on string parameters is a real one. *)
Example parse_sql_comma_in_string :
  parse_sql "INSERT INTO Runs (rowid, name) VALUES (?, ?)"
            [Py.Int 1; Py.Str "a, b"] =
    Ok (Some (InsertSQL "Runs" ["rowid"; "name"]
                ["1"; Py.dquote ++ "a"; "b" ++ Py.dquote])).
Proof. vm_compute. reflexivity. Qed.

Lemma registry_consistent_witness :
  exists c, get_column RUNS_TABLE "run_id" = Found c.
Proof.
  destruct (proj1 registry_consistent RUNS_TABLE) as (_ & Hkeys & _).
  - unfold TABLES. repeat constructor.
  - apply Hkeys. simpl. repeat constructor.
Defined.

(** ** spanner.py: the DDL of a table, read as a text *)

Lemma listed_join (items : list string) : Py.join ", " items = listed items.
Proof.
  destruct items as [|first later]; [done|].
  revert first. induction later as [|item later IH]; intros first.
  - simpl. clear. induction first as [|c first IH]; simpl; [done|].
    by rewrite <- IH.
  - change (Py.join ", " (first :: item :: later))
      with (first ++ ", " ++ Py.join ", " (item :: later)).
    rewrite IH. reflexivity.
Qed.

Lemma to_spanner_type_value_chars ty s :
  to_spanner_type ty = Ok s -> all_chars value_char s = true.
Proof.
  destruct ty as [|l| |l|r]; simpl; try destruct (length_given l);
    intros [= <-]; try reflexivity; simpl;
    rewrite all_chars_app, all_chars_str_of_int; reflexivity.
Qed.

Lemma name_of_decl (b : string) (c : ColumnSchema) (ty : string) :
  b = "" \/ b = " " -> named c -> name_of_piece (b ++ decl c ty) = c_name c.
Proof.
  intros Hb [Hc0 Hc]. unfold name_of_piece, decl.
  assert (all_chars Py.isspace b = true) as Hbs by (by destruct Hb as [-> | ->]).
  rewrite lstrip_drop_while, drop_while_app by done.
  rewrite drop_while_stops.
  - by apply take_while_app.
  - destruct (c_name c) as [|a name]; [done|]. simpl in *.
    apply andb_prop in Hc as [Ha _]. by rewrite (name_char_not_space a Ha).
Qed.

(** Reading the names back from the declarations, with or without the
    blank that a comma leaves in front of them. *)
Lemma names_of_decls (b : string) (cs : list ColumnSchema)
      (tys : list string) :
  b = "" \/ b = " " ->
  Forall2 (fun c ty => to_spanner_type (value_type c) = Ok ty) cs tys ->
  Forall named cs ->
  map name_of_piece (map (append b) (zip_with decl cs tys)) = map c_name cs /\
  Forall (fun d => all_chars value_char d = true) (zip_with decl cs tys).
Proof.
  intros Hb Htys Hcs. induction Htys as [|c ty cs tys Hty _ IH]; [done|].
  apply Forall_cons in Hcs as [Hc Hcs]. destruct (IH Hcs) as [IHn IHv].
  simpl. split.
  - by rewrite name_of_decl, IHn.
  - constructor; [|done]. unfold decl. destruct Hc as [_ Hc].
    destruct (name_facts _ Hc) as (Hcv & _).
    by rewrite !all_chars_app, Hcv, (to_spanner_type_value_chars _ _ Hty).
Qed.

(** C7: for every table whose columns have declared types the DDL is the
    text [CREATE TABLE <name> (<col> <type>, ...) PRIMARY KEY (<keys>)]:
    between the first parentheses one declaration per column, in the
    order of the columns and set apart by a comma and a blank, each the
    name of the column, a blank and its backend type; between the second
    the keys in their order.  With pairwise different column names every
    column is declared exactly once, and when the names are words of
    letters, digits and underscores they are read back from the text, in
    order, by cutting the column list at its commas. *)
Theorem to_spanner_ddl_table (t : TableSchema) :
  Forall (fun c => declared (value_type c)) (columns t) ->
  exists tys,
    Forall2 (fun c ty => to_spanner_type (value_type c) = Ok ty)
            (columns t) tys /\
    let decls := zip_with decl (columns t) tys in
    to_spanner_ddl (Table t) =
      Ok ("CREATE TABLE " ++ t_name t ++ " (" ++ listed decls
            ++ ") PRIMARY KEY (" ++ listed (keys t) ++ ")") /\
    length decls = length (columns t) /\
    (forall (i : nat) c,
        columns t !! i = Some c ->
        exists ty,
          to_spanner_type (value_type c) = Ok ty /\
          decls !! i = Some (c_name c ++ " " ++ ty)) /\
    (NoDup (map c_name (columns t)) -> NoDup decls) /\
    (columns t <> [] -> Forall named (columns t) ->
     map name_of_piece (Py.split "," (listed decls)) =
       map c_name (columns t)).
Proof.
  intros Hcs.
  destruct (column_decls_declared _ Hcs) as (tys & Htys & Hdecls).
  exists tys. split; [done|]. cbn zeta.
  split; [|split; [|split; [|split]]].
  - simpl. rewrite Hdecls. simpl. by rewrite !listed_join.
  - rewrite length_zip_with. rewrite <- (Forall2_length _ _ _ Htys). lia.
  - intros i c Hc.
    destruct (Forall2_lookup_l _ _ _ _ _ Htys Hc) as (ty & Hty & Hcty).
    exists ty. split; [done|].
    rewrite lookup_zip_with, Hc, Hty. done.
  - by apply decls_NoDup.
  - intros Hne Hnamed. rewrite <- listed_join.
    destruct (names_of_decls "" _ _ (or_introl eq_refl) Htys Hnamed)
      as [Hfirst Hchars].
    destruct (names_of_decls " " _ _ (or_intror eq_refl) Htys Hnamed)
      as [Hlater _].
    destruct Htys as [|c ty cs tys Hty Htys]; [done|].
    cbn [zip_with] in *. simpl in Hfirst, Hlater.
    apply Forall_cons in Hchars as [Hd Hds].
    rewrite split_join by done. cbn [map].
    injection Hfirst as -> _. injection Hlater as _ Hlater.
    by rewrite <- Hlater.
Qed.

Lemma to_spanner_ddl_table_witness :
  to_spanner_ddl (Table EVENT_LOGS_TABLE) =
    Ok "CREATE TABLE EventLogs (rowid INT64, customer_number INT64, run_id INT64, event_log_id INT64, path STRING(1023), offset INT64) PRIMARY KEY (rowid, customer_number, run_id, event_log_id)" /\
  map name_of_piece
      (Py.split "," "rowid INT64, customer_number INT64, run_id INT64, event_log_id INT64, path STRING(1023), offset INT64") =
    ["rowid"; "customer_number"; "run_id"; "event_log_id"; "path"; "offset"].
Proof.
  destruct (to_spanner_ddl_table EVENT_LOGS_TABLE)
    as (tys & Htys & Hddl & _ & _ & _ & Hnames).
  - repeat (constructor; [intros r; discriminate|]). constructor.
  - unfold EVENT_LOGS_TABLE in Htys. cbn [columns] in Htys.
    repeat (apply Forall2_cons_inv_l in Htys as (? & ? & Hty & Htys & ->);
            injection Hty as <-).
    apply Forall2_nil_inv_l in Htys as ->.
    split; [exact Hddl|].
    apply Hnames; [discriminate|].
    repeat (constructor; [split; [discriminate|reflexivity]|]). constructor.
Defined.
